(** * EPIC_scraper: the sampling and growth-event pipeline of [epic_module.py]

    A shallow embedding of [threshold_sampling], [accumulated_sampling],
    [resampling] and [growth_time] from
    [src/epic_scraper/epicfileimport/epic_module.py], and the properties of
    the design document checked against it.

    Data model.  A pandas [DataFrame] indexed by [Date] is a list of column
    labels and a list of rows; a row is its index label (a timestamp, here an
    integer) and its cells.  Numeric cells are binary64 floating-point
    numbers, the kernel's primitive [float], so that [pct_change], [diff],
    [round] and the comparisons compute what numpy computes; a missing cell
    is [nan], as in pandas.  Python exceptions are an error value.

    The code runs on pandas releases before 3.0 (it calls
    [fillna(method='ffill')] and reads [value_counts()[0]] by position);
    there [pct_change] forward-fills missing cells before it divides, and the
    model does the same. *)

From Stdlib Require Import ZArith List Bool String Ascii Lia Floats DecimalString.
Import ListNotations.

Set Warnings "-inexact-float".

Local Open Scope Z_scope.
Local Open Scope float_scope.
Local Open Scope list_scope.

(** ** Exceptions *)

(** The Python exceptions the modelled code can raise. *)
Inductive exn : Type :=
| AttributeError
| IndexError
| KeyError
| ValueError
| TypeError.

Inductive result (A : Type) : Type :=
| Ok (a : A)
| Raise (e : exn).
Arguments Ok {A} a.
Arguments Raise {A} e.

Definition bind {A B : Type} (r : result A) (k : A -> result B) : result B :=
  match r with
  | Ok a => k a
  | Raise e => Raise e
  end.

Notation "x <- r ;; k" := (bind r (fun x => k))
  (at level 61, r at next level, right associativity).

(** ** binary64 helpers *)

Module F64.

(** [x >= y] of Python and numpy: false as soon as one side is [nan]. *)
Definition geb (x y : float) : bool := y <=? x.

(** [x != y] of numpy: true as soon as one side is [nan]. *)
Definition neqb (x y : float) : bool := negb (x =? y).

(** The sign bit, read off the class of the number. *)
Definition signbit (x : float) : bool :=
  match classify x with
  | NNormal | NSubn | NZero | NInf => true
  | _ => false
  end.

Definition copysign (t x : float) : float :=
  if signbit x then - (abs t) else abs t.

Definition two52 : float := 4503599627370496.

(** C's [rint] in the default rounding mode (to nearest, ties to even), which
    is what [numpy.rint] calls.  Below 2^52 in magnitude the sum with 2^52
    has no fractional bit left, so the addition itself does the rounding;
    from 2^52 on every binary64 number is an integer already; [nan] and the
    infinities are returned as they are. *)
Definition rint (x : float) : float :=
  if abs x <? two52 then copysign ((abs x + two52) - two52) x else x.

(** [numpy.round(x, 1)]: multiply by ten, round to an integer, divide by ten. *)
Definition round1 (x : float) : float := rint (x * 10) / 10.

(** A number that is neither [nan] nor an infinity. *)
Definition finite (x : float) : bool :=
  match classify x with
  | NaN | PInf | NInf => false
  | _ => true
  end.

Definition nonzero (x : float) : bool :=
  match classify x with
  | PZero | NZero => false
  | _ => true
  end.

(** The sign of a number; [nan] has none. *)
Definition has_sign (s : bool) (x : spec_float) : Prop :=
  match x with
  | S754_nan => False
  | S754_zero s' | S754_infinity s' | S754_finite s' _ _ => s' = s
  end.

Definition is_number (x : spec_float) : Prop := x <> S754_nan.

Definition is_finite_number (x : spec_float) : Prop :=
  match x with
  | S754_zero _ | S754_finite _ _ _ => True
  | _ => False
  end.

End F64.

(** ** The rounding of the specification, read as integer arithmetic

    The operations of [SpecFloat] round an integer mantissa by shifting it
    right and looking at the bits shifted out.  The definitions below name
    the pieces used to state what that rounding computes. *)

Module Rounding.

Local Open Scope Z_scope.

(** Number of bits of a mantissa. *)
Definition D (p : positive) : Z := Zpos (digits2_pos p).

(** Some bit shifted out so far was set. *)
Definition inexact (mrs : shr_record) : bool := shr_r mrs || shr_s mrs.

(** The record reached after shifting [m0] right [k] times. *)
Definition shifted (m0 k : Z) (mrs : shr_record) : Prop :=
  shr_m mrs = m0 / 2 ^ k /\ inexact mrs = negb (m0 mod 2 ^ k =? 0).

(** The second half of [binary_round_aux]: renormalise the rounded mantissa
    and check for overflow. *)
Definition finish (s : bool) (m1 e1 : Z) : spec_float :=
  let '(mrs'', e'') := shr_fexp prec emax m1 e1 loc_Exact in
  match shr_m mrs'' with
  | Z0 => S754_zero s
  | Zpos m => if e'' <=? emax - prec then S754_finite s m e'' else S754_infinity s
  | Zneg _ => S754_nan
  end.

Definition pack (s : bool) (m e : Z) : spec_float :=
  match m with
  | Z0 => S754_zero s
  | Zpos p => if e <=? 971 then S754_finite s p e else S754_infinity s
  | Zneg _ => S754_nan
  end.

(** [r] has sign [s] and a magnitude at least, resp. at most, that of the
    canonical number with mantissa [m] and exponent [e]. *)
Definition above (s : bool) (m : positive) (e : Z) (r : spec_float) : Prop :=
  r = S754_infinity s
  \/ exists m' e', r = S754_finite s m' e' /\ (e < e' \/ (e' = e /\ Zpos m <= Zpos m')).

Definition below (s : bool) (m : positive) (e : Z) (r : spec_float) : Prop :=
  r = S754_zero s
  \/ exists m' e', r = S754_finite s m' e' /\ (e' < e \/ (e' = e /\ Zpos m' <= Zpos m)).

(** The number 1. *)
Definition SFone : spec_float := S754_finite false 4503599627370496 (-52).

End Rounding.

(** ** Numeric frames *)

Record Row : Type := mkRow { Date : Z; cells : list float }.

(** A frame of numeric columns.  Rows are rectangular: every row has one cell
    per label of [columns]; labels are pairwise distinct, as [read_csv]
    leaves them, so that dropping a column by label or by position is the
    same. *)
Record Table : Type := mkTable { columns : list string; rows : list Row }.

(** The [change] argument: ['relative'] selects [pct_change], anything else
    [diff]. *)
Inductive Change : Type := Relative | Absolute.

(** [DataFrame.empty]: one of the two axes has length zero. *)
Definition empty (df : Table) : bool :=
  match columns df, rows df with
  | [], _ => true
  | _, [] => true
  | _, _ => false
  end.

(** [df.iloc[j, 0]] of a row. *)
Definition iloc0 (r : Row) : float := hd nan (cells r).

Definition dates (rs : list Row) : list Z := map Date rs.

Fixpoint has_duplicates (l : list Z) : bool :=
  match l with
  | [] => false
  | x :: l' => existsb (Z.eqb x) l' || has_duplicates l'
  end.

(** *** String helpers for column labels *)

Local Open Scope string_scope.

(** [re.search] of a pattern without metacharacters: substring test. *)
Fixpoint contains (pat s : string) : bool :=
  prefix pat s ||
  match s with
  | EmptyString => false
  | String _ s' => contains pat s'
  end.

(** [str.replace(pat, '')] for a pattern without metacharacters: every
    occurrence found from the left is removed; [skip] counts the characters
    of the current occurrence still to drop. *)
Fixpoint remove_go (pat s : string) (skip : nat) : string :=
  match s with
  | EmptyString => EmptyString
  | String c s' =>
      match skip with
      | S k => remove_go pat s' k
      | O =>
          if (negb (String.eqb pat EmptyString) && prefix pat s)%bool
          then remove_go pat s' (String.length pat - 1)
          else String c (remove_go pat s' O)
      end
  end.

Definition remove_all (pat s : string) : string := remove_go pat s O.

(** [DataFrame.add_suffix] on one label. *)
Definition add_suffix (suffix label : string) : string := label ++ suffix.

(** ** Threshold Sampler *)

(** One cell of [df.pct_change()] / [df.diff()]: the cell against the cell
    one row above ([data / data.shift(1) - 1], resp. [data - data.shift(1)]).
    For [pct_change], [data] is the frame after the forward fill, see
    [changes]. *)
Definition cell_change (change : Change) (prev cur : float) : float :=
  match change with
  | Relative => cur / prev - 1
  | Absolute => cur - prev
  end.

(** The rows of [df.pct_change()] / [df.diff()]: the first row has nothing
    above it and is all [nan]. *)
Fixpoint changes_from (change : Change) (prev : option Row) (rs : list Row)
  : list (list float) :=
  match rs with
  | [] => []
  | r :: rs' =>
      match prev with
      | None => map (fun _ => nan) (cells r)
      | Some p => map (fun pc => cell_change change (fst pc) (snd pc))
                      (combine (cells p) (cells r))
      end :: changes_from change (Some r) rs'
  end.

(** [.fillna(v)] on one cell. *)
Definition fillna (v x : float) : float := if is_nan x then v else x.

(** The forward fill [pct_change] starts with: a missing cell takes the
    value of the same column in the filled row above; in the first row it
    stays missing. *)
Fixpoint ffill_from (above : option (list float)) (rs : list Row) : list Row :=
  match rs with
  | [] => []
  | r :: rs' =>
      let filled :=
        match above with
        | None => cells r
        | Some a => map (fun pc => fillna (fst pc) (snd pc)) (combine a (cells r))
        end in
      mkRow (Date r) filled :: ffill_from (Some filled) rs'
  end.

Definition ffill (rs : list Row) : list Row := ffill_from None rs.

(** [df.pct_change()] fills forward and then divides; [df.diff()] subtracts
    the cells as they are. *)
Definition changes (change : Change) (rs : list Row) : list (list float) :=
  match change with
  | Relative => changes_from Relative None (ffill rs)
  | Absolute => changes_from Absolute None rs
  end.

(** [(df.pct_change() != 0).any(axis=1)] for one row. *)
Definition any_nonzero (ch : list float) : bool :=
  existsb (fun d => F64.neqb d 0) ch.

(** A row of the merged frame: the value columns ([NAME_x]) followed by the
    change columns ([NAME_y]), after [.fillna]. *)
Definition merged_cells (threshold_value : float) (r : Row) (ch : list float)
  : list float :=
  map (fillna (threshold_value + 1)) (cells r ++ ch)%list.

(** [df[df.iloc[:, 1] >= threshold_value]] looks at the second column of the
    merged frame. *)
Definition passes (threshold_value : float) (merged : list float) : bool :=
  F64.geb (nth 1 merged nan) threshold_value.

Definition keep_row (threshold_value : float) (rc : Row * list float) : bool :=
  (any_nonzero (snd rc)
   && passes threshold_value (merged_cells threshold_value (fst rc) (snd rc)))%bool.

(** After the selection every column but the first is dropped. *)
Definition first_column (threshold_value : float) (rc : Row * list float) : Row :=
  mkRow (Date (fst rc))
        (firstn 1 (merged_cells threshold_value (fst rc) (snd rc))).

Definition threshold_rows (change : Change) (threshold_value : float)
  (rs : list Row) : list Row :=
  map (first_column threshold_value)
      (filter (keep_row threshold_value) (combine rs (changes change rs))).

Definition default_threshold_value : float := 0.01.

(** On an index that repeats a label [pd.merge] multiplies the rows, and the
    boolean mask, aligned to the merged index, has not the length of the
    merged frame: [.loc] raises [IndexError].  Without a column,
    [df.iloc[:, 1]] raises it. *)
Definition threshold_sampling (df : Table) (change : Change)
  (threshold_value : float) : result Table :=
  if has_duplicates (dates (rows df)) then Raise IndexError
  else
    match columns df with
    | [] => Raise IndexError
    | c :: _ =>
        Ok (mkTable [remove_all "_x" (add_suffix "_x" c)]
                    (threshold_rows change threshold_value (rows df)))
    end.

(** ** Accumulated Sampler *)

(** The value compared with the threshold for row value [x] against the last
    appended value [base].  [pd.Series([base, x]).pct_change()[1]] fills a
    missing [x] with [base] before it divides; [diff()] does not fill. *)
Definition condition (change : Change) (base x : float) : float :=
  match change with
  | Relative => F64.round1 (abs (fillna base x / base - 1)) * 100
  | Absolute => F64.round1 (abs (x - base))
  end.

(** The [for j in range(len(df))] loop: [last] is [dataframe_change.iloc[-1]];
    the result lists the rows appended by the loop, in order. *)
Fixpoint accumulate (change : Change) (threshold_value : float) (last : Row)
  (rs : list Row) : list Row :=
  match rs with
  | [] => []
  | r :: rs' =>
      if F64.geb (condition change (iloc0 last) (iloc0 r)) threshold_value
      then r :: accumulate change threshold_value r rs'
      else accumulate change threshold_value last rs'
  end.

(** [dataframe_change] after the loop: row 0 first, then the appended rows
    (the loop starts at [j = 0], so it looks at row 0 again). *)
Definition dataframe_change (change : Change) (threshold_value : float)
  (rs : list Row) : list Row :=
  match rs with
  | [] => []
  | r0 :: _ => r0 :: accumulate change threshold_value r0 rs
  end.

(** [df.join(other)]: a left join on the index.  A row of [df] is paired with
    every row of [other] carrying its label, in order; without a partner its
    new cells are missing.  The result keeps the order of [df], whose index
    is in time order. *)
Definition join_row (width : nat) (other : list Row) (r : Row) : list Row :=
  match filter (fun c => Z.eqb (Date c) (Date r)) other with
  | [] => [mkRow (Date r) (cells r ++ repeat nan width)%list]
  | ms => map (fun c => mkRow (Date r) (cells r ++ cells c)%list) ms
  end.

Definition join (width : nat) (df other : list Row) : list Row :=
  flat_map (join_row width other) df.

(** [df.drop(columns=df.iloc[:, :1].columns.tolist())] on one row. *)
Definition drop_first (r : Row) : Row := mkRow (Date r) (tl (cells r)).

(** [df.dropna(axis=0)] keeps the rows without a missing cell. *)
Definition no_missing (r : Row) : bool := forallb (fun x => negb (is_nan x)) (cells r).

Definition accumulated_rows (width : nat) (change : Change)
  (threshold_value : float) (rs : list Row) : list Row :=
  filter no_missing
    (map drop_first (join width rs (dataframe_change change threshold_value rs))).

Definition accumulated_sampling (df : Table) (change : Change)
  (threshold_value : float) : Table :=
  if empty df then df
  else
    mkTable
      (map (remove_all "_change")
           (tl (columns df) ++ map (add_suffix "_change") (columns df))%list)
      (accumulated_rows (List.length (columns df)) change threshold_value (rows df)).

(** ** Frames with their attributes *)

(** A row of a frame of text columns (the Messages log, and what
    [growth_time] makes of it); a missing cell is [None]. *)
Record TextRow : Type := mkTextRow { TDate : Z; texts : list (option string) }.

Inductive Body : Type :=
| Numeric (t : Table)
| Text (labels : list string) (trows : list TextRow).

(** A frame object: its content and the attributes the program hangs on it
    ([df.comment], [df.name], [df.grow]); [None] is an attribute that was
    never set.  pandas does not carry such attributes over to the frames it
    derives, so a frame built by an operation starts without them. *)
Record DataFrame : Type := mkDataFrame {
  body : Body;
  comment : option string;
  name : option string;
  grow : option string
}.

Definition fresh (b : Body) : DataFrame := mkDataFrame b None None None.

Definition labels_of (b : Body) : list string :=
  match b with
  | Numeric t => columns t
  | Text l _ => l
  end.

(** [df.filter(regex=pat).columns.values.tolist()] is non-empty. *)
Definition has_label (pats : list string) (df : DataFrame) : bool :=
  existsb (fun l => existsb (fun p => contains p l) pats) (labels_of (body df)).

(** What [print] wrote: a text, possibly followed by a timestamp rendered
    with [strftime('%Y-%m-%d %H:%M:%S')]. *)
Inductive printed : Type :=
| Line (text : string)
| Stamped (text : string) (stamp : Z).

(** ** Growth-Event Extractor *)

(** [str.split(sep)]: cut at every occurrence of [sep] found from the left. *)
Fixpoint split_go (sep s : string) (skip : nat) (cur : string) : list string :=
  match s with
  | EmptyString => [cur]
  | String c s' =>
      match skip with
      | S k => split_go sep s' k cur
      | O =>
          if prefix sep s
          then cur :: split_go sep s' (String.length sep - 1) EmptyString
          else split_go sep s' O (cur ++ String c EmptyString)
      end
  end.

Definition split (sep s : string) : list string := split_go sep s O EmptyString.

(** [Series.str.split(sep, expand=True)]: one column per part, as many as the
    longest split has, shorter ones padded with missing cells; a missing cell
    splits into missing cells. *)
Definition split_cell (sep : string) (c : option string) : list (option string) :=
  match c with
  | Some s => map Some (split sep s)
  | None => []
  end.

Definition pad (n : nat) (l : list (option string)) : list (option string) :=
  (l ++ repeat None (n - List.length l))%list.

Definition split_expand (sep : string) (col : list (option string))
  : nat * list (list (option string)) :=
  let cut := map (split_cell sep) col in
  let width := fold_right Nat.max 1%nat (map (@List.length _) cut) in
  (width, map (pad width) cut).

(** [df[['a', 'b']] = frame]: the frame must have two columns. *)
Definition two_columns (sp : nat * list (list (option string)))
  : result (list (option string * option string)) :=
  if Nat.eqb (fst sp) 2
  then Ok (map (fun l => (nth 0 l None, nth 1 l None)) (snd sp))
  else Raise ValueError.

(** [Series.value_counts()]: the distinct values with their number of
    occurrences, most frequent first, ties in order of first appearance;
    missing cells are not counted. *)
Fixpoint count_occ_str (x : string) (l : list string) : nat :=
  match l with
  | [] => O
  | y :: l' => (if String.eqb x y then 1 else 0) + count_occ_str x l'
  end.

Fixpoint distinct (seen l : list string) : list string :=
  match l with
  | [] => []
  | x :: l' =>
      if existsb (String.eqb x) seen then distinct seen l'
      else x :: distinct (x :: seen) l'
  end.

Fixpoint insert_desc (p : string * nat) (l : list (string * nat))
  : list (string * nat) :=
  match l with
  | [] => [p]
  | q :: l' =>
      if Nat.leb (snd q) (snd p) then p :: l
      else q :: insert_desc p l'
  end.

Definition value_counts (col : list (option string)) : list (string * nat) :=
  let present := flat_map (fun c => match c with Some s => [s] | None => [] end) col in
  fold_right insert_desc []
    (map (fun x => (x, count_occ_str x present)) (distinct [] present)).

(** [str(n)] of a count. *)
Definition str_of_nat (n : nat) : string :=
  NilEmpty.string_of_uint (Nat.to_uint n).

(** [','.join(l)] *)
Fixpoint join_comma (l : list string) : string :=
  match l with
  | [] => EmptyString
  | [x] => x
  | x :: l' => x ++ "," ++ join_comma l'
  end.

Definition duplicate_name_status : string :=
  "Error: You use the same name for different growth events! Please use unique names for each growth event.".
Definition unmatched_status : string :=
  "The number of growth events is not equal to the number of start and end of the growth events!".
Definition single_growth_status : string := "Single Growth detected.".
Definition no_growth_status : string := "No growth detected.".
Definition no_message_status : string :=
  "Error: No Message log detected, can not determine the number of growth events and the start and end of the growth!".

Definition growths_status (counts : list (string * nat)) : string :=
  str_of_nat (snd (hd (EmptyString, O) counts))
  ++ " growths detected with the names "
  ++ join_comma (map fst counts) ++ ".".

(** The first cell of a row of the split frame, as [df.iloc[i, 0]] inside a
    string concatenation: a missing cell cannot be concatenated. *)
Definition first_part (r : TextRow) : result string :=
  match texts r with
  | Some s :: _ => Ok s
  | _ => Raise TypeError
  end.

(** The [for i in range(0, len(df.index), 2)] loop over the pairs of rows. *)
Fixpoint print_pairs (rs : list TextRow) : result (list printed) :=
  match rs with
  | a :: b :: rs' =>
      na <- first_part a ;;
      nb <- first_part b ;;
      rest <- print_pairs rs' ;;
      Ok (Stamped ("Start of the Growth " ++ na ++ ":") (TDate a)
          :: Stamped ("End of the Growth " ++ nb ++ ":") (TDate b) :: rest)
  | [_] => Raise IndexError
  | [] => Ok []
  end.

(** Columns kept or dropped by a mask. *)
Definition select {A : Type} (mask : list bool) (l : list A) : list A :=
  map snd (filter fst (combine mask l)).

Fixpoint index_of (x : string) (l : list string) : option nat :=
  match l with
  | [] => None
  | y :: l' => if String.eqb x y then Some O else option_map S (index_of x l')
  end.

(** [Series.str.contains(pat)] on one cell: missing stays missing. *)
Definition cell_contains (pat : string) (c : option string) : option bool :=
  option_map (contains pat) c.

(** [df[mask]] with the mask computed from column [k]; a mask with a missing
    entry cannot be used. *)
Fixpoint mask_rows (test : option string -> option bool) (k : nat)
  (rs : list TextRow) : result (list TextRow) :=
  match rs with
  | [] => Ok []
  | r :: rs' =>
      match test (nth k (texts r) None) with
      | None => Raise ValueError
      | Some b =>
          rest <- mask_rows test k rs' ;;
          Ok (if b then r :: rest else rest)
      end
  end.

(** The statements under [if df.empty != True:], on the rows left by the two
    filters; [k] is the position of the [Message] column.  Returns the new
    labels and rows, the status assigned to [df.grow] if any, and what was
    printed. *)
Definition split_messages (labels : list string) (k : nat) (rs : list TextRow)
  : result (list string * list TextRow * option string * list printed) :=
  let keep := map (fun i => negb (Nat.eqb i k)) (seq 0 (List.length labels)) in
  let others := map (fun r => select keep (texts r)) rs in
  first <- two_columns
             (split_expand " moved from " (map (fun r => nth k (texts r) None) rs)) ;;
  second <- two_columns (split_expand " to " (map snd first)) ;;
  let labels' := (select keep labels ++ ["object"; "from"; "to"])%list in
  let rs' :=
    map (fun x =>
           let '(r, o, (ob, (fr, to))) := x in
           mkTextRow (TDate r) (o ++ [ob; fr; to])%list)
        (combine (combine rs others) (combine (map fst first) second)) in
  let counts := value_counts (map fst first) in
  if existsb (fun c => negb (Nat.eqb (snd c) 2)) counts then
    if existsb (fun c => Nat.ltb 1 (snd c)) counts
    then Ok (labels', rs', Some duplicate_name_status, [])
    else Ok (labels', rs', Some unmatched_status, [])
  else
    let n := List.length rs' in
    let '(g1, out1) :=
      if Nat.eqb n 2
      then (Some single_growth_status,
            [Stamped "Start of the Growth: " (hd 0%Z (map TDate rs'));
             Stamped "End of the Growth: " (last (map TDate rs') 0%Z)])
      else (None, []) in
    if Nat.even n then
      out2 <- print_pairs rs' ;;
      Ok (labels', rs', Some (growths_status counts), (out1 ++ out2)%list)
    else Ok (labels', rs', g1, out1).

(** [print(df.grow)]: reading an attribute that was never set raises. *)
Definition print_grow (df : DataFrame) (out : list printed)
  : result (DataFrame * list printed) :=
  match grow df with
  | Some g => Ok (df, (out ++ [Line g])%list)
  | None => Raise AttributeError
  end.

Definition growth_time (df : DataFrame) : result (DataFrame * list printed) :=
  let labels := labels_of (body df) in
  match nth_error labels 0, nth_error labels 2 with
  | Some c0, Some c2 =>
      (* df.drop(df.columns[[0, 2]], axis=1, inplace=True) *)
      let keep := map (fun l => negb (String.eqb l c0 || String.eqb l c2)) labels in
      let labels1 := select keep labels in
      match index_of "Message" labels1 with
      | None => Raise KeyError
      | Some k =>
          match body df with
          | Numeric _ => Raise AttributeError   (* no [.str] on numbers *)
          | Text _ trows =>
              let rows1 := map (fun r => mkTextRow (TDate r) (select keep (texts r))) trows in
              let df1 := mkDataFrame (Text labels1 rows1) (comment df) (name df) (grow df) in
              if existsb (fun r => match cell_contains "moved from" (nth k (texts r) None) with
                                   | Some true => true
                                   | _ => false
                                   end) rows1
              then
                moved <- mask_rows (cell_contains "moved from") k rows1 ;;
                holders <- mask_rows (fun c => option_map negb (cell_contains "Mirror" c))
                                     k moved ;;
                match holders with
                | [] => print_grow (mkDataFrame (Text labels1 []) None None
                                                (Some no_growth_status)) []
                | _ =>
                    sp <- split_messages labels1 k holders ;;
                    let '(labels2, rows2, g, out) := sp in
                    print_grow (mkDataFrame (Text labels2 rows2) None None g) out
                end
              else print_grow df1 []
          end
      end
  | _, _ => Raise IndexError
  end.

(** ** Resampling Orchestrator *)

Definition set_nth {A : Type} (i : nat) (x : A) (l : list A) : list A :=
  (firstn i l ++ match skipn i l with [] => [] | _ :: t => x :: t end)%list.

Definition update_nth {A : Type} (i : nat) (f : A -> A) (l : list A) : list A :=
  match nth_error l i with
  | Some x => set_nth i (f x) l
  | None => l
  end.

Definition set_grow (g : string) (df : DataFrame) : DataFrame :=
  mkDataFrame (body df) (comment df) (name df) (Some g).

Definition set_comment_name (c n : string) (df : DataFrame) : DataFrame :=
  mkDataFrame (body df) (Some c) (Some n) (grow df).

(** Reading [df.comment] or [df.name]. *)
Definition attribute (a : option string) : result string :=
  match a with
  | Some s => Ok s
  | None => Raise AttributeError
  end.

Section Orchestrator.

(** The two samplers as [resampling] calls them: [threshold_sampler] with
    its third argument given or left out. *)
Variable threshold_sampler : Table -> Change -> option float -> result Table.
Variable accumulated_sampler : Table -> Change -> float -> Table.

(** The time-based branch ([DataFrame.resample] with its aggregation, and
    the forward fill of the Shutters frame) is pandas' own; it is taken as
    given. *)
Variable resample_by_time : string -> string -> DataFrame -> result DataFrame.

Definition sample (change : Change) (cut : float) (df : DataFrame)
  : result DataFrame :=
  match body df with
  | Numeric t =>
      t1 <- threshold_sampler t change None ;;
      Ok (fresh (Numeric (accumulated_sampler t1 change cut)))
  | Text _ _ => Raise TypeError
  end.

Definition resample_diff (percent_cut value_cut : float) (df : DataFrame)
  : result DataFrame :=
  if Nat.ltb (List.length (labels_of (body df))) 3 then
    df1 <- (if has_label ["IG"; "MIG"; "PG"] df
            then sample Relative percent_cut df else Ok df) ;;
    if has_label ["PID"; "Pyro"] df1
    then sample Absolute value_cut df1 else Ok df1
  else Ok df.

(** One turn of [for i in range(len(dataframe_list))]. *)
Definition resampling_step (percent_cut value_cut : float)
  (resampling_period resample_method : string) (i : nat)
  (st : list DataFrame * list printed)
  : result (list DataFrame * list printed) :=
  let '(l, out) := st in
  match nth_error l i with
  | None => Raise IndexError
  | Some df =>
      c <- attribute (comment df) ;;
      n <- attribute (name df) ;;
      df1 <- (if String.eqb resample_method "diff"
              then resample_diff percent_cut value_cut df
              else resample_by_time resampling_period n df) ;;
      let l1 := set_nth i df1 l in
      st2 <- (if has_label ["Message"] df1
              then
                g <- growth_time df1 ;;
                Ok (set_nth i (fst g) l1, (out ++ snd g)%list)
              else
                (* dataframe_list[-1].grow = ...; print(dataframe_list[-1].grow) *)
                Ok (update_nth (List.length l1 - 1) (set_grow no_message_status) l1,
                    (out ++ [Line no_message_status])%list)) ;;
      Ok (update_nth i (set_comment_name c n) (fst st2), snd st2)
  end.

Fixpoint resampling_loop (percent_cut value_cut : float)
  (resampling_period resample_method : string) (todo : list nat)
  (st : list DataFrame * list printed)
  : result (list DataFrame * list printed) :=
  match todo with
  | [] => Ok st
  | i :: todo' =>
      st' <- resampling_step percent_cut value_cut resampling_period
                             resample_method i st ;;
      resampling_loop percent_cut value_cut resampling_period resample_method todo' st'
  end.

Definition resampling_with (dataframe_list : list DataFrame)
  (percent_cut value_cut : float) (resampling_period resample_method : string)
  : result (list DataFrame * list printed) :=
  resampling_loop percent_cut value_cut resampling_period resample_method
                  (seq 0 (List.length dataframe_list)) (dataframe_list, []).

End Orchestrator.

(** [threshold_sampling(df, change, threshold_value=0.01)] as a call with the
    third argument given or left out. *)
Definition threshold_sampling_call (df : Table) (change : Change)
  (threshold_value : option float) : result Table :=
  threshold_sampling df change
    (match threshold_value with
     | Some v => v
     | None => default_threshold_value
     end).

Definition resampling :=
  resampling_with threshold_sampling_call accumulated_sampling.

(** ** Inputs and predicates used in the statements *)

(** A row whose first cell is finite; in relative mode the cell is not zero
    either, so that it can serve as a baseline. *)
Definition usable_row (change : Change) (r : Row) : bool :=
  match cells r with
  | x :: _ =>
      F64.finite x
      && match change with
         | Relative => F64.nonzero x
         | Absolute => true
         end
  | [] => false
  end.

(** A row of one such cell and nothing else. *)
Definition plain_row (change : Change) (r : Row) : bool :=
  match cells r with
  | [x] =>
      F64.finite x
      && match change with
         | Relative => F64.nonzero x
         | Absolute => true
         end
  | _ => false
  end.

Definition example_series (t0 t1 t2 t3 : Z) : Table :=
  mkTable ["MIG"%string]
          [mkRow t0 [10.0%float]; mkRow t1 [10.05%float];
           mkRow t2 [10.5%float]; mkRow t3 [11.0%float]].

(** The series of the docstring of [accumulated_sampling]: 10.1, 10.2,
    10.3. *)
Definition docstring_series : Table :=
  mkTable ["MIG"%string]
          [mkRow 0 [10.1%float]; mkRow 1 [10.2%float]; mkRow 2 [10.3%float]].

(** The retention rule as the docstring and the design document describe
    it, for comparison with [condition] and [accumulate]: the change against
    the last retained value is taken in percent and then rounded to one
    decimal; the first row is the seed and the rows after it are looked at
    in turn. *)
Definition percent_then_round (base x : float) : float :=
  F64.round1 (abs (x / base - 1) * 100).

Fixpoint retained_after (threshold_value : float) (last : Row) (rs : list Row)
  : list Row :=
  match rs with
  | [] => []
  | r :: rs' =>
      if F64.geb (percent_then_round (iloc0 last) (iloc0 r)) threshold_value
      then r :: retained_after threshold_value r rs'
      else retained_after threshold_value last rs'
  end.

Definition retained_as_described (threshold_value : float) (rs : list Row)
  : list Row :=
  match rs with
  | [] => []
  | r0 :: rest => r0 :: retained_after threshold_value r0 rest
  end.

Fixpoint strictly_increasing (l : list float) : bool :=
  match l with
  | x :: (y :: _) as l' => (x <? y)%float && strictly_increasing l'
  | _ => true
  end.

Fixpoint strictly_decreasing (l : list float) : bool :=
  match l with
  | x :: (y :: _) as l' => (y <? x)%float && strictly_decreasing l'
  | _ => true
  end.

(** A series (first data column) that only rises or only falls. *)
Definition strictly_monotonic (rs : list Row) : bool :=
  strictly_increasing (map iloc0 rs) || strictly_decreasing (map iloc0 rs).

(** The number of rows of the frame a sampler call retains; a call that
    raises retains nothing. *)
Definition retained (r : result Table) : nat :=
  match r with
  | Ok out => List.length (rows out)
  | Raise _ => O
  end.

Definition falling_series : Table :=
  mkTable ["MIG"%string] [mkRow 0 [10.0%float]; mkRow 1 [5.0%float]].

(** The Messages log as [epiclog_read] loads it: the columns [CallerID],
    [Message] and [Color], here with the given timestamps and messages. *)
Definition messages_log (ms : list (Z * string)) : DataFrame :=
  mkDataFrame
    (Text ["CallerID"; "Message"; "Color"]
          (map (fun m => mkTextRow (fst m) [Some "EPIC"; Some (snd m); Some "Black"]) ms))
    (Some "Messages log") (Some "Messages") None.

(** The value of [df.grow] on the frame returned. *)
Definition status_of (r : result (DataFrame * list printed)) : result (option string) :=
  p <- r ;; Ok (grow (fst p)).

Definition printed_by (r : result (DataFrame * list printed)) : result (list printed) :=
  p <- r ;; Ok (snd p).

Definition pressure_log : DataFrame :=
  mkDataFrame
    (Numeric (mkTable ["MIG"] [mkRow 0 [10.0%float]; mkRow 1 [11.0%float]]))
    (Some "MIG log") (Some "MIG") None.

Definition temperature_log : DataFrame :=
  mkDataFrame
    (Numeric (mkTable ["PID"] [mkRow 0 [500.0%float]; mkRow 1 [510.0%float]]))
    (Some "PID log") (Some "PID") None.

(** The [grow] attributes of the frames of the list returned. *)
Definition statuses (r : result (list DataFrame * list printed))
  : result (list (option string)) :=
  p <- r ;; Ok (map grow (fst p)).

Definition printed_by_list (r : result (list DataFrame * list printed))
  : result (list printed) :=
  p <- r ;; Ok (snd p).

(** The pipeline a series goes through in the change-based mode: the
    Threshold Sampler at 0.01, then the Accumulated Sampler at the cut. *)
Definition sampled_at_default (change : Change) (cut : float) (t : Table)
  : result Table :=
  t1 <- threshold_sampling t change 0.01 ;;
  Ok (accumulated_sampling t1 change cut).

(** ** Further notions used in the statements *)

(** [l1] is [l2] with some elements left out, the order kept. *)
Inductive Subseq {A : Type} : list A -> list A -> Prop :=
| Subseq_nil : Subseq [] []
| Subseq_skip : forall x l1 l2, Subseq l1 l2 -> Subseq l1 (x :: l2)
| Subseq_take : forall x l1 l2, Subseq l1 l2 -> Subseq (x :: l1) (x :: l2).

(** A row reduced to its first column, a missing cell filled with the
    sentinel of [threshold_sampling]. *)
Definition reduce (threshold_value : float) (r : Row) : Row :=
  mkRow (Date r) [fillna (threshold_value + 1) (iloc0 r)].

Definition has_cell (r : Row) : bool :=
  match cells r with
  | [] => false
  | _ :: _ => true
  end.

(** A row of exactly one cell, which is not missing. *)
Definition one_value (r : Row) : bool :=
  match cells r with
  | [x] => negb (is_nan x)
  | _ => false
  end.

(** The series holding the value [x] at each of the timestamps [ds]. *)
Definition constant_series (x : float) (ds : list Z) : list Row :=
  map (fun d => mkRow d [x]) ds.

(** Every row of the list reaches the threshold against the row before it,
    by the value the loop of [accumulated_sampling] compares ([condition]:
    in relative mode a missing value counts as the value before it). *)
Fixpoint chained (change : Change) (threshold_value : float) (l : list Row) : Prop :=
  match l with
  | a :: (b :: _) as l' =>
      F64.geb (condition change (iloc0 a) (iloc0 b)) threshold_value = true
      /\ chained change threshold_value l'
  | _ => True
  end.

(** The label a one-column frame carries after [threshold_sampling] and
    after [accumulated_sampling]. *)
Definition threshold_label (c : string) : string := remove_all "_x" (add_suffix "_x" c).
Definition accumulated_label (c : string) : string :=
  remove_all "_change" (add_suffix "_change" c).

(** The Messages log with the given attributes. *)
Definition messages_frame (ms : list (Z * string)) (c n g : option string) : DataFrame :=
  mkDataFrame
    (Text ["CallerID"; "Message"; "Color"]
          (map (fun m => mkTextRow (fst m) [Some "EPIC"; Some (snd m); Some "Black"]) ms))
    c n g.

(** The same log once [growth_time] has dropped [CallerID] and [Color]. *)
Definition message_rows (ms : list (Z * string)) : list TextRow :=
  map (fun m => mkTextRow (fst m) [Some (snd m)]) ms.

(** The messages [growth_time] keeps: those with "moved from" that do not
    mention the Mirror. *)
Definition holder_moves (ms : list (Z * string)) : list (Z * string) :=
  filter (fun m => negb (contains "Mirror" (snd m)))
         (filter (fun m => contains "moved from" (snd m)) ms).

(** ** Column labels, name and comment as [epiclog_read] sets them *)

Fixpoint remove_char (a : ascii) (s : string) : string :=
  match s with
  | EmptyString => EmptyString
  | String c s' =>
      if Ascii.eqb c a then remove_char a s' else String c (remove_char a s')
  end.

Fixpoint replace_char (a b : ascii) (s : string) : string :=
  match s with
  | EmptyString => EmptyString
  | String c s' => String (if Ascii.eqb c a then b else c) (replace_char a b s')
  end.

(** [str.replace("[']", '').str.replace('[.]', '_').str.replace('[ ]', '_')]
    on one column label. *)
Definition normalize_label (s : string) : string :=
  replace_char " " "_" (replace_char "." "_" (remove_char "'" s)).

(** The labels of the frame: normalised, then ['Date&Time'] renamed to
    ['Date']. *)
Definition read_labels (header : list string) : list string :=
  map (fun l => if String.eqb l "Date&Time" then "Date" else l)
      (map normalize_label header).

(** [name[16:-4].replace('.', '_').replace(' ', '_')] of the file path, one
    [ascii] for each character of the path. *)
Definition frame_name (path : string) : string :=
  replace_char " " "_"
    (replace_char "." "_" (substring 16 (String.length path - 20) path)).

(** [readlines()[0][1:].replace('.', '_')] of the first line of the file. *)
Definition frame_comment (first_line : string) : string :=
  replace_char "." "_" (substring 1 (String.length first_line - 1) first_line).

(** The character occurs in the string. *)
Fixpoint has_char (a : ascii) (s : string) : bool :=
  match s with
  | EmptyString => false
  | String c s' => Ascii.eqb c a || has_char a s'
  end.

(** * Facts about binary64 arithmetic

    What the proofs below need of the primitive operations, derived from
    their specification on [spec_float]. *)

Module F64Facts.

Import F64 Rounding.
Local Open Scope Z_scope.

Lemma has_sign_is_number s x : has_sign s x -> is_number x.
Proof. destruct x; simpl; unfold is_number; congruence || tauto. Qed.

(** *** The comparison is transitive *)

Lemma SFleb_trans x y z :
  SFleb x y = true -> SFleb y z = true -> SFleb x z = true.
Proof.
  unfold SFleb, SFcompare.
  destruct x as [sx|sx| |sx mx ex], y as [sy|sy| |sy my ey], z as [sz|sz| |sz mz ez];
    try discriminate; try reflexivity;
    try (destruct sx; try discriminate; try reflexivity);
    try (destruct sy; try discriminate; try reflexivity);
    try (destruct sz; try discriminate; try reflexivity);
    intros Hxy Hyz;
    change (Pos.compare_cont Eq) with Pos.compare in *;
    destruct (Z.compare_spec ex ey), (Z.compare_spec ey ez), (Z.compare_spec ex ez);
    try discriminate; try reflexivity; try lia; subst;
    destruct (Pos.compare_spec mx my), (Pos.compare_spec my mz), (Pos.compare_spec mx mz);
    try discriminate; try reflexivity; try lia.
Qed.

Lemma leb_trans (x y z : float) :
  (x <=? y)%float = true -> (y <=? z)%float = true -> (x <=? z)%float = true.
Proof. rewrite !leb_spec. apply SFleb_trans. Qed.

(** *** Rounding keeps the sign and never makes [nan] *)

Lemma shr_1_nonneg mrs : 0 <= shr_m mrs -> 0 <= shr_m (shr_1 mrs).
Proof.
  destruct mrs as [m r s]; simpl.
  destruct m as [|p|p]; simpl; try lia; destruct p; simpl; lia.
Qed.

Lemma iter_shr_1_nonneg p :
  forall mrs, 0 <= shr_m mrs -> 0 <= shr_m (iter_pos shr_1 p mrs).
Proof.
  induction p as [p IH|p IH|]; simpl; intros mrs H.
  - apply IH, IH, shr_1_nonneg, H.
  - apply IH, IH, H.
  - apply shr_1_nonneg, H.
Qed.

Lemma shr_nonneg mrs e n : 0 <= shr_m mrs -> 0 <= shr_m (fst (shr mrs e n)).
Proof.
  intros H. unfold shr. destruct n; simpl; auto using iter_shr_1_nonneg.
Qed.

Lemma shr_record_of_loc_m m l : shr_m (shr_record_of_loc m l) = m.
Proof. destruct l as [|[]]; reflexivity. Qed.

Lemma shr_fexp_nonneg m e l :
  0 <= m -> 0 <= shr_m (fst (shr_fexp prec emax m e l)).
Proof.
  intros H. unfold shr_fexp. apply shr_nonneg.
  now rewrite shr_record_of_loc_m.
Qed.

Lemma round_nearest_even_nonneg m l : 0 <= m -> 0 <= round_nearest_even m l.
Proof.
  intros H. unfold round_nearest_even.
  destruct l as [|[]]; try lia. destruct (Z.even m); lia.
Qed.

Lemma binary_round_aux_sign sx mx ex lx :
  0 <= mx -> has_sign sx (binary_round_aux prec emax sx mx ex lx).
Proof.
  intros H. unfold binary_round_aux.
  pose proof (shr_fexp_nonneg mx ex lx H) as H1.
  destruct (shr_fexp prec emax mx ex lx) as [mrs' e']. simpl in H1.
  pose proof (shr_fexp_nonneg _ e' loc_Exact
                (round_nearest_even_nonneg _ (loc_of_shr_record mrs') H1)) as H2.
  destruct (shr_fexp prec emax _ e' loc_Exact) as [mrs'' e'']. simpl in H2.
  destruct (shr_m mrs'') as [|p|p]; simpl; try reflexivity; try lia.
  match goal with |- context [Z.leb ?a ?b] => destruct (Z.leb a b) end; reflexivity.
Qed.

Lemma binary_round_sign sx mx ex : has_sign sx (binary_round prec emax sx mx ex).
Proof.
  unfold binary_round.
  destruct (shl_align mx ex _) as [mz ez].
  apply binary_round_aux_sign. lia.
Qed.

Lemma binary_normalize_is_number m e sz : is_number (binary_normalize prec emax m e sz).
Proof.
  destruct m; simpl.
  - discriminate.
  - eapply has_sign_is_number, binary_round_sign.
  - eapply has_sign_is_number, binary_round_sign.
Qed.

(** *** The operations on numbers *)

Lemma SFabs_sign x : is_number x -> has_sign false (SFabs x).
Proof. destruct x; simpl; unfold is_number; congruence. Qed.

Lemma SFsub_finite x y :
  is_finite_number x -> is_finite_number y -> is_number (SF64sub x y).
Proof.
  unfold SF64sub, SFsub.
  destruct x as [sx|sx| |sx mx ex], y as [sy|sy| |sy my ey]; simpl;
    try tauto; intros _ _; try discriminate.
  - destruct sx, sy; discriminate.
  - apply binary_normalize_is_number.
Qed.

Lemma SFsub_number_finite x sy my ey :
  is_number x -> is_number (SF64sub x (S754_finite sy my ey)).
Proof.
  unfold SF64sub, SFsub, is_number.
  destruct x as [sx|sx| |sx mx ex]; simpl; try congruence.
  intros _. apply binary_normalize_is_number.
Qed.

Lemma SFadd_number_finite x sy my ey :
  is_number x -> is_number (SF64add x (S754_finite sy my ey)).
Proof.
  unfold SF64add, SFadd, is_number.
  destruct x as [sx|sx| |sx mx ex]; simpl; try congruence.
  intros _. apply binary_normalize_is_number.
Qed.

Lemma SFmul_sign x my ey :
  has_sign false x -> has_sign false (SF64mul x (S754_finite false my ey)).
Proof.
  unfold SF64mul, SFmul.
  destruct x as [sx|sx| |sx mx ex]; simpl; try tauto; intros ->; try reflexivity.
  apply binary_round_aux_sign. lia.
Qed.

Lemma div_eucl_nonneg a b : 0 <= a -> 0 < b -> 0 <= fst (Z.div_eucl a b).
Proof.
  intros Ha Hb. change (fst (Z.div_eucl a b)) with (a / b).
  apply Z.div_pos; lia.
Qed.

Lemma SFdiv_core_nonneg mx ex my ey :
  0 <= fst (fst (SFdiv_core_binary prec emax (Zpos mx) ex (Zpos my) ey)).
Proof.
  unfold SFdiv_core_binary.
  set (s := _ - _ - Z.min _ _).
  set (m' := match s with Z0 => _ | Zpos _ => _ | Zneg _ => _ end).
  assert (Hm : 0 <= m').
  { subst m'. destruct s; try lia. apply Z.shiftl_nonneg. lia. }
  pose proof (div_eucl_nonneg m' (Zpos my) Hm ltac:(lia)) as H.
  destruct (Z.div_eucl m' (Zpos my)) as [q r]. exact H.
Qed.

Lemma SFdiv_finite_sign sx mx ex sy my ey :
  has_sign (xorb sx sy) (SF64div (S754_finite sx mx ex) (S754_finite sy my ey)).
Proof.
  unfold SF64div, SFdiv.
  pose proof (SFdiv_core_nonneg mx ex my ey) as H.
  destruct (SFdiv_core_binary prec emax (Zpos mx) ex (Zpos my) ey) as [[mz ez] lz].
  apply binary_round_aux_sign. exact H.
Qed.

Lemma SFdiv_sign x my ey :
  has_sign false x -> has_sign false (SF64div x (S754_finite false my ey)).
Proof.
  destruct x as [sx|sx| |sx mx ex]; simpl; try tauto; intros ->; try reflexivity.
  apply (SFdiv_finite_sign false mx ex false my ey).
Qed.

Lemma SFdiv_finite x sy my ey :
  is_finite_number x -> is_number (SF64div x (S754_finite sy my ey)).
Proof.
  destruct x as [sx|sx| |sx mx ex]; simpl; try tauto; intros _.
  - discriminate.
  - eapply has_sign_is_number, SFdiv_finite_sign.
Qed.

Lemma SFleb_zero x : has_sign false x -> SFleb (S754_zero false) x = true.
Proof. destruct x; simpl; try tauto; intros ->; reflexivity. Qed.

(** *** Reading the class of a primitive number *)

Lemma finite_spec x : F64.finite x = true -> is_finite_number (Prim2SF x).
Proof.
  unfold F64.finite. rewrite classify_spec. unfold SF64classify, SFclassify.
  destruct (Prim2SF x) as [s|s| |s m e]; simpl; try tauto.
  - destruct s; discriminate.
  - discriminate.
Qed.

Lemma nonzero_finite_spec x :
  F64.finite x = true -> F64.nonzero x = true ->
  exists s m e, Prim2SF x = S754_finite s m e.
Proof.
  unfold F64.finite, F64.nonzero. rewrite classify_spec.
  unfold SF64classify, SFclassify.
  destruct (Prim2SF x) as [s|s| |s m e]; simpl.
  - destruct s; discriminate.
  - destruct s; discriminate.
  - discriminate.
  - intros _ _. now exists s, m, e.
Qed.

Lemma signbit_spec x : has_sign false (Prim2SF x) -> F64.signbit x = false.
Proof.
  unfold F64.signbit. rewrite classify_spec. unfold SF64classify, SFclassify.
  destruct (Prim2SF x) as [s|s| |s m e]; simpl; try tauto; intros ->; try reflexivity.
  match goal with |- context [if ?c then _ else _] => destruct c end; reflexivity.
Qed.

Lemma SFeqb_refl x : is_number x -> SFeqb x x = true.
Proof.
  unfold SFeqb, SFcompare, is_number.
  destruct x as [s|s| |s m e]; try congruence; intros _; try reflexivity.
  - destruct s; reflexivity.
  - change (Pos.compare_cont Eq) with Pos.compare.
    rewrite Z.compare_refl, Pos.compare_refl. destruct s; reflexivity.
Qed.

Lemma is_nan_spec x : is_number (Prim2SF x) -> is_nan x = false.
Proof.
  intros H. unfold is_nan. rewrite eqb_spec, SFeqb_refl; auto.
Qed.

Lemma finite_not_nan x : F64.finite x = true -> is_nan x = false.
Proof.
  intros H. apply is_nan_spec. apply finite_spec in H.
  destruct (Prim2SF x); simpl in H; unfold is_number; congruence || tauto.
Qed.

(** *** Rounding to one decimal and the retention value *)

Lemma rint_sign y :
  has_sign false (Prim2SF y) -> has_sign false (Prim2SF (F64.rint y)).
Proof.
  intros H. unfold F64.rint.
  destruct (abs y <? F64.two52)%float; [|exact H].
  unfold F64.copysign. rewrite (signbit_spec y H).
  rewrite abs_spec. apply SFabs_sign.
  rewrite sub_spec.
  change (Prim2SF F64.two52) with (S754_finite false 4503599627370496 0).
  apply SFsub_number_finite.
  rewrite add_spec.
  change (Prim2SF F64.two52) with (S754_finite false 4503599627370496 0).
  apply SFadd_number_finite.
  rewrite abs_spec. eapply has_sign_is_number, SFabs_sign, has_sign_is_number, H.
Qed.

Lemma round1_sign x :
  has_sign false (Prim2SF x) -> has_sign false (Prim2SF (F64.round1 x)).
Proof.
  intros H. unfold F64.round1.
  rewrite div_spec.
  change (Prim2SF 10%float) with (S754_finite false 5629499534213120 (-49)).
  apply SFdiv_sign, rint_sign.
  rewrite mul_spec.
  change (Prim2SF 10%float) with (S754_finite false 5629499534213120 (-49)).
  apply SFmul_sign, H.
Qed.

Lemma zero_leb x : has_sign false (Prim2SF x) -> (0 <=? x)%float = true.
Proof.
  intros H. rewrite leb_spec.
  change (Prim2SF 0%float) with (S754_zero false).
  apply SFleb_zero, H.
Qed.

(** A cell that is a number is left as it is by [fillna]. *)
Lemma fillna_number v x : is_nan x = false -> fillna v x = x.
Proof.
  intros H. unfold fillna. now rewrite H.
Qed.

Lemma fillna_finite v x : F64.finite x = true -> fillna v x = x.
Proof.
  intros H. apply fillna_number, finite_not_nan, H.
Qed.

(** With threshold 0 the test of [accumulated_sampling] succeeds on finite
    values; in relative mode the baseline must not be zero, or [0 / 0] makes
    the change [nan]. *)
Lemma condition_passes_zero change base x :
  F64.finite base = true -> F64.finite x = true ->
  (change = Relative -> F64.nonzero base = true) ->
  F64.geb (condition change base x) 0 = true.
Proof.
  intros Hb Hx Hnz. unfold F64.geb. apply zero_leb.
  destruct change; unfold condition; rewrite ?(fillna_finite base x Hx).
  - destruct (nonzero_finite_spec base Hb (Hnz eq_refl)) as (s & m & e & Hbase).
    rewrite mul_spec.
    change (Prim2SF 100%float) with (S754_finite false 7036874417766400 (-46)).
    apply SFmul_sign, round1_sign.
    rewrite abs_spec. apply SFabs_sign.
    rewrite sub_spec.
    change (Prim2SF 1%float) with (S754_finite false 4503599627370496 (-52)).
    apply SFsub_number_finite.
    rewrite div_spec, Hbase.
    apply SFdiv_finite, finite_spec, Hx.
  - apply round1_sign.
    rewrite abs_spec. apply SFabs_sign.
    rewrite sub_spec.
    apply SFsub_finite; apply finite_spec; assumption.
Qed.

Lemma geb_nan_l t : F64.geb nan t = false.
Proof.
  unfold F64.geb. rewrite leb_spec.
  change (Prim2SF nan) with S754_nan.
  unfold SFleb, SFcompare. destruct (Prim2SF t); reflexivity.
Qed.

(** *** Adding one does not go below

    The sum [t + 1] is the rounding of the exact sum; rounding a number that
    is at least (at most) the canonical number [t] gives a number with the
    same property, which is what the lemmas [aux_above] and [aux_below]
    state on mantissas and exponents. *)

Lemma digits2_size p : digits2_pos p = Pos.size p.
Proof. induction p; simpl; congruence. Qed.

Lemma D_bounds p : 2 ^ (D p - 1) <= Zpos p < 2 ^ D p.
Proof.
  unfold D. rewrite digits2_size. split.
  - pose proof (Pos.size_le p) as H.
    apply Pos2Z.pos_le_pos in H. rewrite Pos2Z.inj_pow in H.
    replace (Zpos (Pos.size p)) with (Zpos (Pos.size p) - 1 + 1) in H by lia.
    rewrite Z.pow_add_r in H by lia. 
    change (Zpos p~0) with (2 * Zpos p) in H. lia.
  - pose proof (Pos.size_gt p) as H.
    apply Pos2Z.pos_lt_pos in H. now rewrite Pos2Z.inj_pow in H.
Qed.

Lemma D_pos p : 1 <= D p.
Proof. unfold D. lia. Qed.

Lemma fexp_eq e : fexp prec emax e = Z.max (e - 53) (-1074).
Proof. reflexivity. Qed.

(** The number of bits is characterised by its bounds. *)
Lemma D_le_iff p k : 0 <= k -> (D p <= k <-> Zpos p < 2 ^ k).
Proof.
  intros Hk. pose proof (D_bounds p) as [Hl Hu]. pose proof (D_pos p) as Hp. split; intros H.
  - eapply Z.lt_le_trans; [exact Hu|]. apply Z.pow_le_mono_r; lia.
  - destruct (Z.le_gt_cases (D p) k) as [|Hgt]; [assumption|].
    assert (2 ^ k <= 2 ^ (D p - 1)) as Hq by (apply Z.pow_le_mono_r; lia). lia.
Qed.

(** Shifting right divides the mantissa by two and remembers whether a set
    bit was lost. *)

Lemma loc_exact_iff mrs : loc_of_shr_record mrs = loc_Exact <-> inexact mrs = false.
Proof. destruct mrs as [m [] []]; simpl; unfold inexact; simpl; split; congruence. Qed.

Lemma shr_1_m mrs : 0 <= shr_m mrs -> shr_m (shr_1 mrs) = shr_m mrs / 2.
Proof.
  destruct mrs as [m r s]; simpl. destruct m as [|p|p]; try lia; intros _.
  - reflexivity.
  - destruct p; simpl.
    + rewrite Pos2Z.inj_xI. apply Z.div_unique with 1; lia.
    + rewrite Pos2Z.inj_xO. apply Z.div_unique with 0; lia.
    + reflexivity.
Qed.

Lemma shr_1_inexact mrs :
  0 <= shr_m mrs ->
  inexact (shr_1 mrs) = negb (shr_m mrs mod 2 =? 0) || inexact mrs.
Proof.
  destruct mrs as [m r s]; unfold inexact; simpl. destruct m as [|p|p]; try lia; intros _.
  - reflexivity.
  - destruct p; simpl shr_r; simpl shr_s.
    + rewrite Pos2Z.inj_xI. replace ((2 * Z.pos p + 1) mod 2) with 1; [reflexivity|].
      apply Z.mod_unique with (Zpos p); lia.
    + rewrite Pos2Z.inj_xO. replace ((2 * Z.pos p) mod 2) with 0; [reflexivity|].
      apply Z.mod_unique with (Zpos p); lia.
    + reflexivity.
Qed.

Lemma shifted_step m0 k mrs :
  0 <= m0 -> 0 <= k -> shifted m0 k mrs -> shifted m0 (k + 1) (shr_1 mrs).
Proof.
  intros Hm Hk [H1 H2].
  assert (Hq : 0 <= shr_m mrs) by (rewrite H1; apply Z.div_pos; lia).
  assert (Hp : 0 < 2 ^ k) by (apply Z.pow_pos_nonneg; lia).
  split.
  - rewrite shr_1_m, H1 by assumption.
    rewrite Z.pow_add_r, Z.pow_1_r by lia. rewrite Z.div_div by lia. reflexivity.
  - rewrite shr_1_inexact, H1, H2 by assumption.
    rewrite Z.pow_add_r, Z.pow_1_r by lia.
    rewrite (Z.rem_mul_r m0 (2 ^ k) 2) by lia.
    pose proof (Z.mod_pos_bound m0 (2 ^ k) Hp) as Hb.
    pose proof (Z.mod_pos_bound (m0 / 2 ^ k) 2 ltac:(lia)) as Hb2.
    destruct (Z.eqb_spec ((m0 / 2 ^ k) mod 2) 0) as [E|E];
    destruct (Z.eqb_spec (m0 mod 2 ^ k) 0) as [E'|E'];
    destruct (Z.eqb_spec (m0 mod 2 ^ k + 2 ^ k * ((m0 / 2 ^ k) mod 2)) 0) as [E''|E''];
      simpl; try reflexivity; exfalso; nia.
Qed.

Lemma shifted_iter m0 p :
  0 <= m0 ->
  forall k mrs, 0 <= k -> shifted m0 k mrs -> shifted m0 (k + Zpos p) (iter_pos shr_1 p mrs).
Proof.
  intros Hm. induction p as [p IH|p IH|]; intros k mrs Hk H; simpl.
  - replace (k + Zpos p~1) with (k + 1 + Zpos p + Zpos p) by lia.
    apply IH; [lia|]. apply IH; [lia|]. now apply shifted_step.
  - replace (k + Zpos p~0) with (k + Zpos p + Zpos p) by lia.
    apply IH; [lia|]. now apply IH.
  - now apply shifted_step.
Qed.

Lemma shifted_init m0 : shifted m0 0 (Build_shr_record m0 false false).
Proof.
  split; simpl.
  - now rewrite Z.div_1_r.
  - unfold inexact. simpl. now rewrite Z.mod_1_r.
Qed.

Lemma shr_spec m0 e n :
  0 <= m0 -> 0 <= n ->
  shifted m0 n (fst (shr (Build_shr_record m0 false false) e n))
  /\ snd (shr (Build_shr_record m0 false false) e n) = e + n.
Proof.
  intros Hm Hn. unfold shr. destruct n as [|p|p]; try lia; simpl.
  - split; [apply shifted_init|lia].
  - split; [|reflexivity].
    apply (shifted_iter m0 p Hm 0 _ (Z.le_refl 0) (shifted_init m0)).
Qed.

Lemma binary_round_aux_finish s mx ex lx :
  binary_round_aux prec emax s mx ex lx
  = finish s (round_nearest_even (shr_m (fst (shr_fexp prec emax mx ex lx)))
                                 (loc_of_shr_record (fst (shr_fexp prec emax mx ex lx))))
           (snd (shr_fexp prec emax mx ex lx)).
Proof.
  unfold binary_round_aux, finish.
  destruct (shr_fexp prec emax mx ex lx) as [mrs' e']. reflexivity.
Qed.

Lemma finish_spec s m1 e1 :
  0 <= m1 ->
  let n2 := fexp prec emax (Zdigits2 m1 + e1) - e1 in
  finish s m1 e1
  = if 0 <? n2 then pack s (m1 / 2 ^ n2) (e1 + n2) else pack s m1 e1.
Proof.
  intros Hm n2. unfold finish, shr_fexp. fold n2.
  change (shr_record_of_loc m1 loc_Exact) with (Build_shr_record m1 false false).
  destruct (Z.ltb_spec 0 n2) as [Hn|Hn].
  - destruct (shr_spec m1 e1 n2 Hm ltac:(lia)) as [[H1 _] H2].
    destruct (shr _ e1 n2) as [mrs e'']. cbn [fst snd] in *. subst e''. rewrite H1.
    reflexivity.
  - unfold shr. destruct n2 as [|p|p]; try lia; reflexivity.
Qed.

Lemma round_nearest_even_bounds q l :
  q <= round_nearest_even q l <= q + 1
  /\ (l = loc_Exact -> round_nearest_even q l = q).
Proof.
  unfold round_nearest_even.
  destruct l as [|[]]; [|destruct (Z.even q)| |];
    (split; [lia|try discriminate; reflexivity]).
Qed.

(** The first half of [binary_round_aux]: the mantissa is divided by a power
    of two and rounded; it is rounded up only when the division is inexact. *)
Lemma binary_round_aux_spec s p ex :
  ex <= fexp prec emax (D p + ex) ->
  let n := fexp prec emax (D p + ex) - ex in
  let q := Zpos p / 2 ^ n in
  exists m1,
    q <= m1 <= q + 1
    /\ (Zpos p mod 2 ^ n = 0 -> m1 = q)
    /\ binary_round_aux prec emax s (Zpos p) ex loc_Exact
       = finish s m1 (fexp prec emax (D p + ex)).
Proof.
  intros Hex n q. rewrite binary_round_aux_finish.
  unfold shr_fexp. change (Zdigits2 (Zpos p)) with (D p). fold n.
  change (shr_record_of_loc (Zpos p) loc_Exact) with (Build_shr_record (Zpos p) false false).
  assert (Hn : 0 <= n) by (unfold n; lia).
  destruct (shr_spec (Zpos p) ex n (Pos2Z.is_nonneg p) Hn) as [[H1 H2] H3].
  destruct (shr _ ex n) as [mrs e']. cbn [fst snd] in *. subst e'.
  replace (ex + n) with (fexp prec emax (D p + ex)) by (unfold n; lia).
  exists (round_nearest_even (shr_m mrs) (loc_of_shr_record mrs)).
  destruct (round_nearest_even_bounds (shr_m mrs) (loc_of_shr_record mrs)) as [Hb He].
  rewrite H1 in *. fold q in Hb, He |- *.
  split; [exact Hb|]. split; [|reflexivity].
  intros Hmod. apply He. apply loc_exact_iff. rewrite H2, Hmod. reflexivity.
Qed.

Lemma pow2_pos k : 0 <= k -> 0 < 2 ^ k.
Proof. intros. apply Z.pow_pos_nonneg; lia. Qed.

Lemma pow2_lt_inv a b : 0 <= b -> 2 ^ a < 2 ^ b -> a < b.
Proof.
  intros Hb H. destruct (Z.le_gt_cases b a) as [Hle|]; [|assumption].
  assert (2 ^ b <= 2 ^ a) by (apply Z.pow_le_mono_r; lia). lia.
Qed.

Lemma D_mono a b : Zpos a <= Zpos b -> D a <= D b.
Proof.
  intros H. pose proof (D_pos b) as Hb. apply D_le_iff; [lia|].
  pose proof (D_bounds b). lia.
Qed.

Lemma mag_le a b k : 0 <= k -> Zpos a * 2 ^ k <= Zpos b -> D a + k <= D b.
Proof.
  intros Hk H. pose proof (D_bounds a) as [Ha _]. pose proof (D_bounds b) as [_ Hb].
  pose proof (D_pos a) as Hpa. pose proof (D_pos b) as Hpb.
  assert (Hp : 2 ^ (D a - 1 + k) < 2 ^ D b).
  { rewrite Z.pow_add_r by lia. pose proof (pow2_pos k Hk). nia. }
  apply pow2_lt_inv in Hp; lia.
Qed.

Lemma mag_ge a b k : 0 <= k -> Zpos b <= Zpos a * 2 ^ k -> D b <= D a + k.
Proof.
  intros Hk H. pose proof (D_bounds a) as [_ Ha]. pose proof (D_pos a) as Hpa.
  apply D_le_iff; [lia|]. rewrite Z.pow_add_r by lia.
  pose proof (pow2_pos k Hk). nia.
Qed.

Lemma bounded_spec m e :
  bounded prec emax m e = true ->
  e = Z.max (D m + e - 53) (-1074) /\ e <= 971.
Proof.
  unfold bounded, canonical_mantissa. intros H.
  apply andb_true_iff in H. destruct H as [H1 H2].
  apply Z.eqb_eq in H1. apply Z.leb_le in H2.
  rewrite fexp_eq in H1. change (Zpos (digits2_pos m)) with (D m) in H1.
  change (emax - prec) with 971 in H2. lia.
Qed.

Lemma pack_above s m e m1 e1 :
  0 < m1 -> (e < e1 \/ (e1 = e /\ Zpos m <= m1)) -> above s m e (pack s m1 e1).
Proof.
  intros Hm H. unfold pack. destruct m1 as [|p|p]; try lia.
  destruct (e1 <=? 971); [right|left; reflexivity].
  exists p, e1. split; [reflexivity|exact H].
Qed.

Lemma pack_below s m e m1 e1 :
  0 <= m1 -> e1 <= 971 -> (e1 < e \/ (e1 = e /\ m1 <= Zpos m)) -> below s m e (pack s m1 e1).
Proof.
  intros Hm He H. unfold pack. destruct m1 as [|p|p]; try lia.
  - left; reflexivity.
  - destruct (Z.leb_spec e1 971); [|lia]. right.
    exists p, e1. split; [reflexivity|exact H].
Qed.

Lemma div_pow2_ge a k c : 0 <= k -> c * 2 ^ k <= a -> c <= a / 2 ^ k.
Proof.
  intros Hk H. apply Z.div_le_lower_bound; [now apply pow2_pos|lia].
Qed.

Lemma finish_above s m e p1 f :
  -1074 <= f ->
  (e < f \/ (f = e /\ Zpos m <= Zpos p1)) ->
  above s m e (finish s (Zpos p1) f).
Proof.
  intros Hf H. rewrite finish_spec by lia.
  change (Zdigits2 (Zpos p1)) with (D p1). rewrite fexp_eq.
  set (n2 := Z.max (D p1 + f - 53) (-1074) - f).
  destruct (Z.ltb_spec 0 n2) as [Hn|Hn].
  - assert (En : n2 = D p1 - 53) by (unfold n2 in *; lia).
    apply pack_above; [|lia].
    pose proof (D_bounds p1) as [Hl _].
    assert (2 ^ 52 <= Zpos p1 / 2 ^ n2); [|lia].
    apply div_pow2_ge; [lia|]. rewrite <- Z.pow_add_r by lia.
    replace (52 + n2) with (D p1 - 1) by lia. exact Hl.
  - apply pack_above; [lia|exact H].
Qed.

Lemma aux_above s p ex m e :
  bounded prec emax m e = true ->
  ex <= e ->
  ex <= fexp prec emax (D p + ex) ->
  Zpos m * 2 ^ (e - ex) <= Zpos p ->
  above s m e (binary_round_aux prec emax s (Zpos p) ex loc_Exact).
Proof.
  intros Hb Hex Hf Hle.
  apply bounded_spec in Hb. destruct Hb as [He Hmax].
  pose proof (mag_le m p (e - ex) ltac:(lia) Hle) as Hmag.
  destruct (binary_round_aux_spec s p ex Hf) as (m1 & Hm1 & _ & ->).
  rewrite fexp_eq in *.
  set (f := Z.max (D p + ex - 53) (-1074)) in *.
  assert (Hfe : e <= f) by (unfold f; lia).
  assert (Hq : (e < f /\ 1 <= Zpos p / 2 ^ (f - ex))
               \/ (f = e /\ Zpos m <= Zpos p / 2 ^ (f - ex))).
  { destruct (Z.eq_dec f e) as [E|E].
    - right. split; [exact E|]. rewrite E. apply div_pow2_ge; [lia|exact Hle].
    - left. split; [lia|].
      assert (Ef : f = D p + ex - 53) by (unfold f in *; lia).
      pose proof (D_bounds p) as [Hl _].
      assert (2 ^ 52 <= Zpos p / 2 ^ (f - ex)); [|lia].
      apply div_pow2_ge; [lia|]. rewrite <- Z.pow_add_r by lia.
      replace (52 + (f - ex)) with (D p - 1) by lia. exact Hl. }
  destruct m1 as [|p1|p1]; try lia.
  apply finish_above; [unfold f; lia|].
  destruct Hq as [[H1 _]|[H1 H2]]; [left; exact H1|right; split; [exact H1|lia]].
Qed.

Lemma finish_zero s f : -1074 <= f -> finish s 0 f = S754_zero s.
Proof.
  intros Hf. rewrite finish_spec by lia.
  change (Zdigits2 0) with 0. rewrite fexp_eq.
  destruct (Z.ltb_spec 0 (Z.max (0 + f - 53) (-1074) - f)); [lia|reflexivity].
Qed.

Lemma aux_below s p ex m e :
  bounded prec emax m e = true ->
  ex <= e ->
  ex <= fexp prec emax (D p + ex) ->
  Zpos p <= Zpos m * 2 ^ (e - ex) ->
  below s m e (binary_round_aux prec emax s (Zpos p) ex loc_Exact).
Proof.
  intros Hb Hex Hf Hle.
  apply bounded_spec in Hb. destruct Hb as [He Hmax].
  pose proof (mag_ge m p (e - ex) ltac:(lia) Hle) as Hmag.
  destruct (binary_round_aux_spec s p ex Hf) as (m1 & Hm1 & Hexact & ->).
  rewrite fexp_eq in *.
  set (f := Z.max (D p + ex - 53) (-1074)) in *.
  assert (Hfe : f <= e) by (unfold f; lia).
  assert (Hf0 : -1074 <= f) by (unfold f; lia).
  set (n := f - ex) in *.
  assert (Hn : 0 <= n) by (unfold n; lia).
  pose proof (pow2_pos n Hn) as Hpn.
  assert (Hq0 : 0 <= Zpos p / 2 ^ n) by (apply Z.div_pos; lia).
  (* the quotient has at most 53 bits *)
  assert (Hq53 : Zpos p / 2 ^ n < 2 ^ 53).
  { apply Z.div_lt_upper_bound; [exact Hpn|].
    rewrite <- Z.pow_add_r by lia.
    pose proof (D_bounds p) as [_ Hu].
    eapply Z.lt_le_trans; [exact Hu|].
    apply Z.pow_le_mono_r; [lia|]. unfold n, f. lia. }
  destruct m1 as [|p1|p1]; try lia.
  { rewrite finish_zero by exact Hf0. left; reflexivity. }
  rewrite finish_spec by lia.
  change (Zdigits2 (Zpos p1)) with (D p1). rewrite fexp_eq.
  set (n2 := Z.max (D p1 + f - 53) (-1074) - f).
  destruct (Z.eq_dec f e) as [E|E].
  - (* same exponent: the mantissa does not exceed m *)
    assert (Hm : Zpos p1 <= Zpos m).
    { destruct (Z.eq_dec (Zpos p mod 2 ^ n) 0) as [Ez|Ez].
      - rewrite (Hexact Ez).
        apply Z.div_le_upper_bound; [exact Hpn|].
        unfold n. rewrite E. lia.
      - assert (Zpos p / 2 ^ n < Zpos m); [|lia].
        apply Z.div_lt_upper_bound; [exact Hpn|].
        assert (Zpos p <> 2 ^ n * Zpos m); [|unfold n in *; rewrite E in *; lia].
        intros Hc. apply Ez. rewrite Hc, Z.mul_comm. apply Z.mod_mul. lia. }
    pose proof (D_mono p1 m Hm) as HD.
    assert (Hn2 : n2 <= 0) by (unfold n2; lia).
    destruct (Z.ltb_spec 0 n2); [lia|].
    apply pack_below; [lia|lia|right; split; [exact E|exact Hm]].
  - (* smaller exponent: m is normal *)
    assert (HDm : D m = 53) by lia.
    pose proof (D_bounds m) as [Hml _]. rewrite HDm in Hml. simpl in Hml.
    destruct (Z.ltb_spec 0 n2) as [Hn2|Hn2].
    + assert (HD1 : 54 <= D p1) by (unfold n2 in Hn2; lia).
      pose proof (D_bounds p1) as [Hl1 _].
      assert (2 ^ 53 <= Zpos p1).
      { eapply Z.le_trans; [|exact Hl1]. apply Z.pow_le_mono_r; lia. }
      assert (E1 : Zpos p1 = 2 ^ 53) by lia.
      assert (HD54 : D p1 = 54).
      { apply Z.le_antisymm; [|exact HD1]. apply D_le_iff; [lia|]. rewrite E1. reflexivity. }
      assert (En2 : n2 = 1) by (unfold n2; lia).
      rewrite En2, E1.
      change (2 ^ 53 / 2 ^ 1) with 4503599627370496.
      apply pack_below; [lia|lia|].
      destruct (Z.eq_dec (f + 1) e) as [E2|E2]; [right|left; lia].
      split; [exact E2|]. change (2 ^ (53 - 1)) with 4503599627370496 in Hml. exact Hml.
    + apply pack_below; [lia|lia|left; lia].
Qed.

Lemma iter_xO_Z m d : Zpos (Pos.iter xO m d) = Zpos m * 2 ^ Zpos d.
Proof.
  induction d as [|d IH] using Pos.peano_ind.
  - simpl. lia.
  - rewrite Pos.iter_succ, Pos2Z.inj_xO, IH, Pos2Z.inj_succ, Z.pow_succ_r by lia. lia.
Qed.

Lemma iter_xO_D m d : D (Pos.iter xO m d) = D m + Zpos d.
Proof.
  unfold D. induction d as [|d IH] using Pos.peano_ind.
  - simpl. lia.
  - rewrite Pos.iter_succ. simpl digits2_pos. rewrite Pos2Z.inj_succ, IH. lia.
Qed.

Lemma shl_align_fst m e ez :
  ez <= e -> Zpos (fst (shl_align m e ez)) = Zpos m * 2 ^ (e - ez).
Proof.
  intros H. unfold shl_align.
  destruct (ez - e) as [|d|d] eqn:E; simpl fst.
  - replace (e - ez) with 0 by lia. lia.
  - lia.
  - rewrite iter_xO_Z. f_equal. f_equal. lia.
Qed.

Lemma binary_round_cases s p ex :
  exists pz ez,
    binary_round prec emax s p ex = binary_round_aux prec emax s (Zpos pz) ez loc_Exact
    /\ ez <= ex
    /\ Zpos pz = Zpos p * 2 ^ (ex - ez)
    /\ ez <= fexp prec emax (D pz + ez).
Proof.
  unfold binary_round, shl_align.
  change (Zpos (digits2_pos p)) with (D p).
  destruct (fexp prec emax (D p + ex) - ex) as [|d|d] eqn:E.
  - exists p, ex. repeat split; try lia. rewrite Z.sub_diag. simpl. lia.
  - exists p, ex. repeat split; try lia. rewrite Z.sub_diag. simpl. lia.
  - exists (Pos.iter xO p d), (fexp prec emax (D p + ex)).
    split; [reflexivity|]. split; [lia|]. split.
    + rewrite iter_xO_Z. f_equal. f_equal. lia.
    + rewrite iter_xO_D.
      replace (D p + Zpos d + fexp prec emax (D p + ex)) with (D p + ex) by lia. lia.
Qed.

Lemma binary_round_above s p ex m e :
  bounded prec emax m e = true ->
  ex <= e ->
  Zpos m * 2 ^ (e - ex) <= Zpos p ->
  above s m e (binary_round prec emax s p ex).
Proof.
  intros Hb Hex Hle.
  destruct (binary_round_cases s p ex) as (pz & ez & -> & Hez & Hpz & Hf).
  apply aux_above; try assumption; [lia|].
  rewrite Hpz. replace (e - ez) with ((e - ex) + (ex - ez)) by lia.
  rewrite Z.pow_add_r by lia.
  pose proof (pow2_pos (ex - ez) ltac:(lia)). nia.
Qed.

Lemma binary_round_below s p ex m e :
  bounded prec emax m e = true ->
  ex <= e ->
  Zpos p <= Zpos m * 2 ^ (e - ex) ->
  below s m e (binary_round prec emax s p ex).
Proof.
  intros Hb Hex Hle.
  destruct (binary_round_cases s p ex) as (pz & ez & -> & Hez & Hpz & Hf).
  apply aux_below; try assumption; [lia|].
  rewrite Hpz. replace (e - ez) with ((e - ex) + (ex - ez)) by lia.
  rewrite Z.pow_add_r by lia.
  pose proof (pow2_pos (ex - ez) ltac:(lia)). nia.
Qed.

Lemma SFleb_above m e r : above false m e r -> SFleb (S754_finite false m e) r = true.
Proof.
  intros [->|(m' & e' & -> & H)]; [reflexivity|].
  unfold SFleb, SFcompare. change (Pos.compare_cont Eq) with Pos.compare.
  destruct (Z.compare_spec e e'); try reflexivity; try lia.
  destruct (Pos.compare_spec m m'); try reflexivity; lia.
Qed.

Lemma SFleb_below m e r : below true m e r -> SFleb (S754_finite true m e) r = true.
Proof.
  intros [->|(m' & e' & -> & H)]; [reflexivity|].
  unfold SFleb, SFcompare. change (Pos.compare_cont Eq) with Pos.compare.
  destruct (Z.compare_spec e e'); try reflexivity; try lia.
  destruct (Pos.compare_spec m m'); try reflexivity; lia.
Qed.

Lemma above_sign s m e r : above s m e r -> has_sign s r.
Proof. intros [->|(m' & e' & -> & _)]; reflexivity. Qed.

Lemma SFleb_negative_positive m e r :
  has_sign false r -> SFleb (S754_finite true m e) r = true.
Proof. destruct r; simpl; try tauto; intros ->; reflexivity. Qed.

Lemma SFleb_add_one x :
  valid_binary x = true -> x <> S754_nan ->
  SFleb x (SF64add x SFone) = true.
Proof.
  intros Hv Hn. unfold SF64add, SFadd, SFone.
  destruct x as [s|s| |s m e]; try congruence.
  - reflexivity.
  - destruct s; reflexivity.
  - simpl in Hv.
    set (ez := Z.min e (-52)).
    assert (Hez : ez <= e) by (unfold ez; lia).
    assert (Hez1 : ez <= -52) by (unfold ez; lia).
    pose proof (shl_align_fst m e ez Hez) as Hm1.
    pose proof (shl_align_fst 4503599627370496 (-52) ez Hez1) as Ho1.
    set (m1 := fst (shl_align m e ez)) in *.
    set (o1 := fst (shl_align 4503599627370496 (-52) ez)) in *.
    destruct s; unfold cond_Zopp.
    + (* negative: the sum is closer to zero, or not negative *)
      destruct (- Zpos m1 + Zpos o1) as [|pM|pM] eqn:EM; unfold binary_normalize.
      * reflexivity.
      * apply SFleb_negative_positive, binary_round_sign.
      * apply SFleb_below, binary_round_below; [exact Hv|exact Hez|].
        rewrite <- Hm1. lia.
    + (* positive: the sum is larger *)
      change (Zpos m1 + Zpos o1) with (Zpos (m1 + o1)). unfold binary_normalize.
      apply SFleb_above, binary_round_above; [exact Hv|exact Hez|].
      rewrite <- Hm1. lia.
Qed.

Lemma leb_number x y : (x <=? y)%float = true -> Prim2SF x <> S754_nan.
Proof.
  rewrite leb_spec. intros H E. rewrite E in H. discriminate.
Qed.

(** [t <= t + 1] for every number [t]. *)
Lemma leb_add_one t u : (t <=? u)%float = true -> (t <=? t + 1)%float = true.
Proof.
  intros H. rewrite leb_spec, add_spec.
  change (Prim2SF 1%float) with SFone.
  apply SFleb_add_one; [apply Prim2SF_valid|exact (leb_number t u H)].
Qed.

(** *** A number against itself *)

Lemma is_nan_false_number x : is_nan x = false -> Prim2SF x <> S754_nan.
Proof.
  unfold is_nan. rewrite eqb_spec. intros H E. rewrite E in H. discriminate.
Qed.

Lemma leb_refl_number x : is_nan x = false -> (x <=? x)%float = true.
Proof.
  intros H. apply is_nan_false_number in H.
  assert (E : SFeqb (Prim2SF x) (Prim2SF x) = true) by (apply SFeqb_refl; exact H).
  rewrite leb_spec. unfold SFleb, SFeqb in *.
  destruct (SFcompare (Prim2SF x) (Prim2SF x)) as [[]|]; congruence.
Qed.

(** [t + 1 >= t] for every number [t]. *)
Lemma sentinel_passes t : is_nan t = false -> F64.geb (t + 1) t = true.
Proof.
  intros H. unfold F64.geb. apply (leb_add_one t t), leb_refl_number, H.
Qed.

Lemma shl_align_same m e : shl_align m e e = (m, e).
Proof. unfold shl_align. rewrite Z.sub_diag. reflexivity. Qed.

(** [x - x] is [+0] for a finite [x]. *)
Lemma sub_self x : F64.finite x = true -> (x - x)%float = 0%float.
Proof.
  intros H. apply Prim2SF_inj. rewrite sub_spec.
  change (Prim2SF 0%float) with (S754_zero false).
  apply finite_spec in H.
  destruct (Prim2SF x) as [s|s| |s m e]; simpl in H; try tauto.
  - destruct s; reflexivity.
  - unfold SF64sub, SFsub. rewrite Z.min_id, shl_align_same. simpl fst.
    rewrite Z.sub_diag. reflexivity.
Qed.

Lemma div_eucl_exact a b : 0 < b -> Z.div_eucl (a * b) b = (a, 0).
Proof.
  intros Hb.
  pose proof (Z.div_mul a b ltac:(lia)) as Hd.
  pose proof (Z.mod_mul a b ltac:(lia)) as Hm.
  unfold Z.div, Z.modulo in *.
  destruct (Z.div_eucl (a * b) b) as [q r]. congruence.
Qed.

(** [x / x] is 1 for a finite [x] other than zero. *)
Lemma div_self x :
  F64.finite x = true -> F64.nonzero x = true -> (x / x)%float = 1%float.
Proof.
  intros Hf Hn. apply Prim2SF_inj. rewrite div_spec.
  change (Prim2SF 1%float) with SFone.
  destruct (nonzero_finite_spec x Hf Hn) as (s & m & e & ->).
  unfold SF64div, SFdiv, SFdiv_core_binary.
  rewrite Z.sub_diag.
  rewrite Z.sub_diag.
  change (Z.min (fexp prec emax 0) 0) with (-53).
  change (0 - -53) with 53.
  rewrite Z.shiftl_mul_pow2 by lia.
  rewrite (Z.mul_comm (Zpos m)), div_eucl_exact by lia.
  rewrite xorb_nilpotent.
  replace (new_location (Zpos m) 0) with loc_Exact.
  2:{ unfold new_location, new_location_even, new_location_odd.
      destruct (Z.even (Zpos m)); reflexivity. }
  reflexivity.
Qed.

(** Strictly below excludes at least. *)
Lemma SFltb_not_leb x y : SFltb x y = true -> SFleb y x = false.
Proof.
  unfold SFltb, SFleb, SFcompare.
  destruct x as [sx|sx| |sx mx ex], y as [sy|sy| |sy my ey];
    try discriminate; try reflexivity;
    try (destruct sx; try discriminate; try reflexivity);
    try (destruct sy; try discriminate; try reflexivity);
    change (Pos.compare_cont Eq) with Pos.compare;
    rewrite (Z.compare_antisym ex ey), (Pos.compare_antisym mx my);
    destruct (ex ?= ey), (mx ?= my)%positive; simpl; congruence.
Qed.

Lemma ltb_not_geb x y : (x <? y)%float = true -> F64.geb x y = false.
Proof.
  unfold F64.geb. rewrite ltb_spec, leb_spec. apply SFltb_not_leb.
Qed.

End F64Facts.

(** * Properties of the samplers *)

Local Open Scope list_scope.

(** ** Index labels *)

Lemma has_duplicates_NoDup l : has_duplicates l = false -> NoDup l.
Proof.
  induction l as [|x l IH]; simpl; intros H.
  - constructor.
  - apply orb_false_iff in H. destruct H as [Hx Hl].
    constructor; [|auto].
    intros Hin. assert (existsb (Z.eqb x) l = true) as E.
    { apply existsb_exists. exists x. split; [exact Hin|apply Z.eqb_refl]. }
    congruence.
Qed.

Lemma filter_date_absent d l :
  ~ In d (dates l) -> filter (fun c => Z.eqb (Date c) d) l = [].
Proof.
  induction l as [|a l IH]; simpl; intros H; [reflexivity|].
  destruct (Z.eqb_spec (Date a) d) as [E|E].
  - exfalso. apply H. now left.
  - apply IH. intros Hin. apply H. now right.
Qed.

Lemma filter_date_unique l r :
  NoDup (dates l) -> In r l ->
  filter (fun c => Z.eqb (Date c) (Date r)) l = [r].
Proof.
  induction l as [|a l IH]; simpl; intros Hnd Hin; [contradiction|].
  inversion Hnd as [|? ? Ha Hl]; subst.
  destruct Hin as [->|Hin].
  - rewrite Z.eqb_refl. now rewrite filter_date_absent.
  - destruct (Z.eqb_spec (Date a) (Date r)) as [E|E].
    + exfalso. apply Ha. rewrite E. now apply in_map.
    + now apply IH.
Qed.

(** ** The seed row of the Accumulated Sampler *)

Lemma join_row_head w r0 other :
  In (mkRow (Date r0) (cells r0 ++ cells r0)) (join_row w (r0 :: other) r0).
Proof.
  unfold join_row. simpl. rewrite Z.eqb_refl. simpl. now left.
Qed.

Lemma tl_app_self {A : Type} (a : list A) : tl (a ++ a) = tl a ++ a.
Proof. destruct a; reflexivity. Qed.

Lemma forallb_tl {A : Type} (f : A -> bool) (a : list A) :
  forallb f a = true -> forallb f (tl a) = true.
Proof.
  destruct a; simpl; [auto|]. intros H. now apply andb_true_iff in H.
Qed.

(** The seed: row 0 is in [dataframe_change] whatever the mode and the
    threshold, so the join finds it a partner. *)
Lemma accumulated_rows_seed w change threshold_value r0 rest :
  no_missing r0 = true ->
  In (mkRow (Date r0) (tl (cells r0) ++ cells r0))
     (accumulated_rows w change threshold_value (r0 :: rest)).
Proof.
  intros Hnm. unfold accumulated_rows.
  apply filter_In. split.
  - rewrite <- tl_app_self.
    change (mkRow (Date r0) (tl (cells r0 ++ cells r0)))
      with (drop_first (mkRow (Date r0) (cells r0 ++ cells r0))).
    apply in_map. unfold join. apply in_flat_map.
    exists r0. split; [now left|].
    unfold dataframe_change. apply join_row_head.
  - unfold no_missing in *. simpl.
    rewrite forallb_app, Hnm, (forallb_tl _ _ Hnm). reflexivity.
Qed.

(** C3, amended.  For every non-empty input table whose row 0 has no missing
    (nan) cell, whatever the change mode and the threshold, the output of
    [accumulated_sampling] has a row with the timestamp of row 0 holding the
    cells of row 0 (the cells after the first, then all of them: the join
    adds the retained copy and the original first column is dropped); for a
    one-column table, the shape the Threshold Sampler hands over, that row is
    row 0 itself, unmodified. *)
Theorem accumulated_sampling_keeps_seed :
  forall (df : Table) (change : Change) (threshold_value : float)
         (r0 : Row) (rest : list Row),
    columns df <> [] ->
    rows df = r0 :: rest ->
    no_missing r0 = true ->
    In (mkRow (Date r0) (tl (cells r0) ++ cells r0))
       (rows (accumulated_sampling df change threshold_value))
    /\ (forall x, cells r0 = [x] ->
                  In r0 (rows (accumulated_sampling df change threshold_value))).
Proof.
  intros df change thr r0 rest Hc Hr Hnm.
  assert (In (mkRow (Date r0) (tl (cells r0) ++ cells r0))
             (rows (accumulated_sampling df change thr))) as H.
  { unfold accumulated_sampling, empty. rewrite Hr.
    destruct (columns df) as [|c cs]; [congruence|]. simpl rows.
    apply accumulated_rows_seed, Hnm. }
  split; [exact H|].
  intros x Hx. rewrite Hx in H. simpl in H.
  destruct r0 as [d cs]. simpl in *. now subst cs.
Qed.

Lemma accumulated_sampling_keeps_seed_witness :
  In (mkRow 0 [10%float])
     (rows (accumulated_sampling
              (mkTable ["MIG"%string] [mkRow 0 [10%float]; mkRow 1 [10.05%float]])
              Relative 2%float)).
Proof.
  refine (proj2 (accumulated_sampling_keeps_seed
                   (mkTable ["MIG"%string] [mkRow 0 [10%float]; mkRow 1 [10.05%float]])
                   Relative 2%float (mkRow 0 [10%float]) [mkRow 1 [10.05%float]]
                   _ eq_refl eq_refl) 10%float eq_refl).
  discriminate.
Defined.

(** C3 as stated fails: a row 0 whose cell is missing takes part in the join
    like any other row and is then removed by [dropna]; here the output is
    empty although the input is not. *)
Lemma accumulated_sampling_drops_missing_seed :
  let df := mkTable ["PID"%string] [mkRow 0 [nan]; mkRow 1 [1%float]] in
  empty df = false
  /\ hd_error (rows df) = Some (mkRow 0 [nan])
  /\ rows (accumulated_sampling df Absolute 0.2%float) = [].
Proof. repeat split. Qed.

(** ** Threshold zero in the Accumulated Sampler *)

Lemma usable_row_cells change r :
  usable_row change r = true ->
  exists x l, cells r = x :: l /\ F64.finite x = true
              /\ (change = Relative -> F64.nonzero x = true).
Proof.
  unfold usable_row. destruct (cells r) as [|x l]; try discriminate.
  intros H. apply andb_true_iff in H. destruct H as [Hf Hn].
  exists x, l. repeat split; auto.
  intros ->. exact Hn.
Qed.

Lemma plain_row_usable change r : plain_row change r = true -> usable_row change r = true.
Proof.
  unfold plain_row, usable_row. destruct (cells r) as [|x [|y l]]; auto; discriminate.
Qed.

Lemma plain_row_cells change r :
  plain_row change r = true ->
  exists x, cells r = [x] /\ F64.finite x = true.
Proof.
  unfold plain_row. destruct (cells r) as [|x [|y l]]; try discriminate.
  intros H. apply andb_true_iff in H. destruct H as [Hf Hn].
  exists x. split; auto.
Qed.

(** With threshold 0 the loop appends every row. *)
Lemma accumulate_zero_all change rs :
  forall last,
    usable_row change last = true ->
    forallb (usable_row change) rs = true ->
    accumulate change 0 last rs = rs.
Proof.
  induction rs as [|r rs IH]; intros last Hl Hrs; simpl; [reflexivity|].
  simpl in Hrs. apply andb_true_iff in Hrs. destruct Hrs as [Hr Hrs].
  destruct (usable_row_cells _ _ Hl) as (b & lb & Hb & Hbf & Hbn).
  destruct (usable_row_cells _ _ Hr) as (x & lx & Hx & Hxf & _).
  unfold iloc0. rewrite Hb, Hx. simpl hd.
  rewrite (F64Facts.condition_passes_zero change b x Hbf Hxf Hbn).
  now rewrite IH.
Qed.

(** The row of the join for row 0 when [dataframe_change] starts with row 0
    twice: two partners at least. *)
Lemma join_row_twice w r0 other :
  exists more,
    join_row w (r0 :: r0 :: other) r0
    = mkRow (Date r0) (cells r0 ++ cells r0)
      :: mkRow (Date r0) (cells r0 ++ cells r0) :: more.
Proof.
  unfold join_row. simpl filter. rewrite Z.eqb_refl. simpl. eauto.
Qed.

Lemma no_missing_joined r0 :
  no_missing r0 = true ->
  no_missing (drop_first (mkRow (Date r0) (cells r0 ++ cells r0))) = true.
Proof.
  intros H. unfold no_missing, drop_first in *. simpl.
  rewrite tl_app_self, forallb_app, H, (forallb_tl _ _ H). reflexivity.
Qed.

Lemma flat_map_singletons {A B : Type} (f : A -> list B) (g : A -> B) l :
  (forall a, In a l -> f a = [g a]) -> flat_map f l = map g l.
Proof.
  induction l as [|a l IH]; simpl; intros H; [reflexivity|].
  rewrite (H a (or_introl eq_refl)), IH; auto.
Qed.

Lemma join_seeded w r0 rest :
  NoDup (dates (r0 :: rest)) ->
  join w (r0 :: rest) (r0 :: r0 :: rest)
  = mkRow (Date r0) (cells r0 ++ cells r0)
    :: map (fun r => mkRow (Date r) (cells r ++ cells r)) (r0 :: rest).
Proof.
  intros Hnd. inversion Hnd as [|? ? H0 Hrest]; subst.
  unfold join. simpl flat_map.
  unfold join_row at 1. simpl filter. rewrite Z.eqb_refl.
  rewrite (filter_date_absent (Date r0) rest H0). simpl.
  do 2 f_equal.
  apply flat_map_singletons. intros r Hr.
  unfold join_row. simpl filter.
  destruct (Z.eqb_spec (Date r0) (Date r)) as [E|E].
  - exfalso. apply H0. rewrite E. now apply in_map.
  - now rewrite (filter_date_unique rest r Hrest Hr).
Qed.

Lemma plain_row_restored change r :
  plain_row change r = true ->
  drop_first (mkRow (Date r) (cells r ++ cells r)) = r
  /\ no_missing r = true.
Proof.
  intros H. destruct (plain_row_cells _ _ H) as (x & Hx & Hf).
  destruct r as [d cs]. simpl in *. subst cs. split; [reflexivity|].
  unfold no_missing. simpl. now rewrite (F64Facts.finite_not_nan x Hf).
Qed.

Lemma restore_plain_rows change rs :
  forallb (plain_row change) rs = true ->
  filter no_missing
    (map drop_first (map (fun r => mkRow (Date r) (cells r ++ cells r)) rs)) = rs.
Proof.
  induction rs as [|r rs IH]; simpl; intros H; [reflexivity|].
  apply andb_true_iff in H. destruct H as [Hr Hrs].
  destruct (plain_row_restored _ _ Hr) as [E Hnm].
  rewrite E, Hnm, IH; auto.
Qed.

Lemma forallb_plain_usable change rs :
  forallb (plain_row change) rs = true -> forallb (usable_row change) rs = true.
Proof.
  induction rs as [|r rs IH]; simpl; [auto|]. intros H.
  apply andb_true_iff in H. destruct H as [Hr Hrs].
  now rewrite (plain_row_usable _ _ Hr), IH.
Qed.

(** On a one-column table with pairwise distinct timestamps the output for
    threshold 0 is exactly the input with row 0 once more in front. *)
Lemma accumulated_sampling_zero_threshold_exact :
  forall (df : Table) (change : Change) (label : string)
         (r0 : Row) (rest : list Row),
    columns df = [label] ->
    rows df = r0 :: rest ->
    has_duplicates (dates (rows df)) = false ->
    forallb (plain_row change) (rows df) = true ->
    rows (accumulated_sampling df change 0) = r0 :: rows df.
Proof.
  intros df change label r0 rest Hc Hr Hnd Hp.
  rewrite Hr in *.
  assert (Hp0 : plain_row change r0 = true).
  { simpl in Hp. now apply andb_true_iff in Hp. }
  assert (Hacc : dataframe_change change 0 (r0 :: rest) = r0 :: r0 :: rest).
  { unfold dataframe_change. f_equal.
    apply accumulate_zero_all; auto using plain_row_usable, forallb_plain_usable. }
  unfold accumulated_sampling, empty. rewrite Hc, Hr. simpl rows.
  unfold accumulated_rows. rewrite Hacc.
  rewrite (join_seeded _ r0 rest (has_duplicates_NoDup _ Hnd)).
  rewrite (map_cons drop_first). cbn [filter].
  destruct (plain_row_restored _ _ Hp0) as [E Hnm].
  rewrite E, Hnm. f_equal.
  apply (restore_plain_rows change (r0 :: rest) Hp).
Qed.

(** C10, amended.  For [accumulated_sampling] called with threshold 0 on a
    non-empty input table whose first-column values are finite (and, in
    relative mode, not zero) and whose row 0 has no missing cell, every input
    row satisfies the retention condition, so row 0 is appended as the seed
    and again on the first loop iteration, followed by all the rows; the
    output starts with two rows carrying the timestamp and cells of row 0,
    which for a one-column table are row 0 itself, twice. *)
Theorem accumulated_sampling_zero_threshold :
  forall (df : Table) (change : Change) (r0 : Row) (rest : list Row),
    columns df <> [] ->
    rows df = r0 :: rest ->
    forallb (usable_row change) (rows df) = true ->
    no_missing r0 = true ->
    dataframe_change change 0 (rows df) = r0 :: rows df
    /\ (exists more,
          rows (accumulated_sampling df change 0)
          = mkRow (Date r0) (tl (cells r0) ++ cells r0)
            :: mkRow (Date r0) (tl (cells r0) ++ cells r0) :: more)
    /\ (forall x, cells r0 = [x] ->
          exists more, rows (accumulated_sampling df change 0) = r0 :: r0 :: more).
Proof.
  intros df change r0 rest Hc Hr Hu Hnm.
  rewrite Hr in *.
  assert (Hu0 : usable_row change r0 = true).
  { simpl in Hu. now apply andb_true_iff in Hu. }
  assert (Hacc : dataframe_change change 0 (r0 :: rest) = r0 :: r0 :: rest).
  { unfold dataframe_change. f_equal. now apply accumulate_zero_all. }
  assert (Hout : exists more,
             rows (accumulated_sampling df change 0)
             = mkRow (Date r0) (tl (cells r0) ++ cells r0)
               :: mkRow (Date r0) (tl (cells r0) ++ cells r0) :: more).
  { unfold accumulated_sampling, empty. rewrite Hr.
    destruct (columns df) as [|c cs]; [congruence|]. simpl rows.
    unfold accumulated_rows. rewrite Hacc. unfold join. cbn [flat_map].
    destruct (join_row_twice (S (List.length cs)) r0 rest) as [more ->].
    cbn [app map filter].
    rewrite (no_missing_joined r0 Hnm).
    unfold drop_first at 1 2. simpl Date. simpl cells. rewrite tl_app_self.
    eexists. reflexivity. }
  split; [exact Hacc|]. split; [exact Hout|].
  intros x Hx. destruct Hout as [more Hout]. exists more.
  rewrite Hout, Hx. simpl. destruct r0 as [d cs]. simpl in *. now subst cs.
Qed.

Lemma accumulated_sampling_zero_threshold_witness :
  exists more,
    rows (accumulated_sampling
            (mkTable ["PID"%string] [mkRow 0 [10%float]; mkRow 1 [10.05%float]])
            Absolute 0)
    = mkRow 0 [10%float] :: mkRow 0 [10%float] :: more.
Proof.
  refine (proj2 (proj2 (accumulated_sampling_zero_threshold
                  (mkTable ["PID"%string] [mkRow 0 [10%float]; mkRow 1 [10.05%float]])
                  Absolute (mkRow 0 [10%float]) [mkRow 1 [10.05%float]]
                  _ eq_refl eq_refl eq_refl)) 10%float eq_refl).
  discriminate.
Defined.

(** C10 as stated fails in relative mode on a first value of zero: the change
    of row 0 against itself is [0 / 0 - 1], which is [nan], and [nan >= 0] is
    false; row 0 is not appended a second time and appears once. *)
Lemma zero_threshold_zero_baseline :
  let df := mkTable ["MIG"%string] [mkRow 0 [0%float]] in
  empty df = false
  /\ F64.geb (condition Relative 0 0) 0 = false
  /\ dataframe_change Relative 0 (rows df) = [mkRow 0 [0%float]]
  /\ rows (accumulated_sampling df Relative 0) = [mkRow 0 [0%float]].
Proof. repeat split. Qed.

(** ** The worked example of the Accumulated Sampler *)

(** The values compared with the threshold 2 along the example: the relative
    change is rounded to one decimal before it is multiplied by 100, so it is
    0 below 5 % and 10 from 5 % on.  For 10.5 against 10.0 the change
    [10.5 / 10.0 - 1] is 0.05000000000000004 in binary64, just above the tie,
    and rounds to 0.1. *)
Lemma example_conditions :
  condition Relative 10.0 10.0 = 0%float
  /\ condition Relative 10.0 10.05 = 0%float
  /\ condition Relative 10.0 10.5 = 10%float
  /\ condition Relative 10.5 11.0 = 0%float.
Proof. repeat split. Qed.

(** The same changes in percent, rounded after the scaling: 0.5, 5 and 4.8,
    so that the rows of t2 and of t3 reach a threshold of 2. *)
Lemma example_percent_then_round :
  percent_then_round 10.0 10.05 = 0.5%float
  /\ percent_then_round 10.0 10.5 = 5%float
  /\ percent_then_round 10.5 11.0 = 4.8%float.
Proof. repeat split. Qed.

(** With the change rounded after the scaling the example gives the rows the
    design document expects, t0, t2 and t3. *)
Lemma example_series_as_described :
  dates (retained_as_described 2 (rows (example_series 0 1 2 3))) = [0; 2; 3]%Z.
Proof. reflexivity. Qed.

(** The example of the docstring, "10.1, 10.2, 10.3 ... 2% change ... this can
    catch the change as; 10.1, 10.3": [accumulated_sampling] returns the row
    of 10.1 only, the change of 10.3 against 10.1 (1.98 %) being rounded to
    0.0 before it is scaled; rounded after the scaling it is 2.0, and the
    rows are those the docstring names. *)
Lemma docstring_series_one_row :
  rows (accumulated_sampling docstring_series Relative 2) = [mkRow 0 [10.1%float]]
  /\ retained_as_described 2 (rows docstring_series)
     = [mkRow 0 [10.1%float]; mkRow 2 [10.3%float]].
Proof. split; reflexivity. Qed.

(** The value compared is a multiple of 10: every threshold above 0 and up to
    10 selects the same rows of the example. *)
Lemma example_series_cut_ignored :
  accumulated_sampling (example_series 0 1 2 3) Relative 0.5
  = accumulated_sampling (example_series 0 1 2 3) Relative 2
  /\ accumulated_sampling (example_series 0 1 2 3) Relative 10
     = accumulated_sampling (example_series 0 1 2 3) Relative 2.
Proof. split; reflexivity. Qed.

(** C2.  In relative mode with threshold 2 the four-row series (t0,10.0),
    (t1,10.05), (t2,10.5), (t3,11.0) comes out as the rows of t0 and t2 only,
    where the design document expects t0, t2 and t3: the relative change is
    rounded to one decimal while it is still a fraction, and scaled to
    percent after that, so the change of 11.0 against the baseline 10.5
    (0.0476) becomes 0 and the row of t3 is left out. *)
Theorem accumulated_sampling_example :
  forall t0 t1 t2 t3 : Z,
    (t0 < t1)%Z -> (t1 < t2)%Z -> (t2 < t3)%Z ->
    rows (accumulated_sampling (example_series t0 t1 t2 t3) Relative 2)
    = [mkRow t0 [10.0%float]; mkRow t2 [10.5%float]].
Proof.
  intros t0 t1 t2 t3 H01 H12 H23.
  unfold accumulated_sampling, example_series, empty. simpl rows. simpl columns.
  cbv iota. unfold accumulated_rows.
  change (dataframe_change Relative 2
            [mkRow t0 [10.0%float]; mkRow t1 [10.05%float];
             mkRow t2 [10.5%float]; mkRow t3 [11.0%float]])
    with [mkRow t0 [10.0%float]; mkRow t2 [10.5%float]].
  unfold join, join_row. simpl.
  rewrite !Z.eqb_refl.
  replace (t0 =? t1)%Z with false by (symmetry; apply Z.eqb_neq; lia).
  replace (t2 =? t1)%Z with false by (symmetry; apply Z.eqb_neq; lia).
  replace (t2 =? t0)%Z with false by (symmetry; apply Z.eqb_neq; lia).
  replace (t0 =? t2)%Z with false by (symmetry; apply Z.eqb_neq; lia).
  replace (t0 =? t3)%Z with false by (symmetry; apply Z.eqb_neq; lia).
  replace (t2 =? t3)%Z with false by (symmetry; apply Z.eqb_neq; lia).
  reflexivity.
Qed.

Lemma accumulated_sampling_example_witness :
  rows (accumulated_sampling (example_series 0 1 2 3) Relative 2)
  = [mkRow 0 [10.0%float]; mkRow 2 [10.5%float]].
Proof.
  apply (accumulated_sampling_example 0 1 2 3); reflexivity.
Defined.

(** The row of t3 is not retained. *)
Lemma example_series_three_rows_refuted :
  dates (rows (accumulated_sampling (example_series 0 1 2 3) Relative 2))
  <> [0; 2; 3]%Z.
Proof. discriminate. Qed.

(** ** Threshold Sampler: a larger threshold keeps fewer rows *)

Lemma filter_length_le {A : Type} (p q : A -> bool) (l : list A) :
  (forall x, p x = true -> q x = true) ->
  (List.length (filter p l) <= List.length (filter q l))%nat.
Proof.
  intros H. induction l as [|a l IH]; simpl; [lia|].
  destruct (p a) eqn:Ep.
  - rewrite (H a Ep). simpl. lia.
  - destruct (q a); simpl; lia.
Qed.

(** The test on the second merged column, spelled out: on a missing cell the
    sentinel [threshold_value + 1] is compared with the threshold. *)
Lemma passes_merged t r ch :
  passes t (merged_cells t r ch)
  = match cells r ++ ch with
    | _ :: x :: _ => F64.geb (fillna (t + 1) x) t
    | _ => false
    end.
Proof.
  unfold passes, merged_cells.
  destruct (cells r ++ ch) as [|a [|x l]]; simpl;
    auto using F64Facts.geb_nan_l.
Qed.

Lemma keep_row_antitone t1 t2 rc :
  (t1 <=? t2)%float = true ->
  keep_row t2 rc = true -> keep_row t1 rc = true.
Proof.
  intros H12. unfold keep_row. rewrite !passes_merged.
  intros H. apply andb_true_iff in H. destruct H as [Ha Hp].
  rewrite Ha. simpl.
  destruct (cells (fst rc) ++ snd rc) as [|a [|x l]]; try discriminate.
  unfold fillna, F64.geb in *.
  destruct (is_nan x).
  - exact (F64Facts.leb_add_one t1 t2 H12).
  - exact (F64Facts.leb_trans _ _ _ H12 Hp).
Qed.

Lemma threshold_rows_length change t rs :
  List.length (threshold_rows change t rs)
  = List.length (filter (keep_row t) (combine rs (changes change rs))).
Proof. unfold threshold_rows. apply length_map. Qed.

(** The number of retained rows does not grow with the threshold, for any
    frame (monotonic or not). *)
Lemma threshold_rows_antitone change t1 t2 rs :
  (t1 <=? t2)%float = true ->
  (List.length (threshold_rows change t2 rs)
   <= List.length (threshold_rows change t1 rs))%nat.
Proof.
  intros H12. rewrite !threshold_rows_length.
  apply filter_length_le. intros rc. now apply keep_row_antitone.
Qed.

(** C8.  For a strictly monotonic input series and thresholds t1 <= t2,
    [threshold_sampling] retains with t2 at most as many rows as with t1; and
    when the frame has a data column and pairwise distinct timestamps, the
    sampler returns a frame for both thresholds. *)
Theorem threshold_sampling_monotone :
  forall (df : Table) (change : Change) (t1 t2 : float),
    strictly_monotonic (rows df) = true ->
    (t1 <=? t2)%float = true ->
    (retained (threshold_sampling df change t2)
     <= retained (threshold_sampling df change t1))%nat
    /\ (columns df <> [] ->
        has_duplicates (dates (rows df)) = false ->
        exists out1 out2,
          threshold_sampling df change t1 = Ok out1
          /\ threshold_sampling df change t2 = Ok out2
          /\ (List.length (rows out2) <= List.length (rows out1))%nat).
Proof.
  intros df change t1 t2 _ H12.
  pose proof (threshold_rows_antitone change t1 t2 (rows df) H12) as Hle.
  unfold threshold_sampling. split.
  - destruct (has_duplicates (dates (rows df))); [simpl; lia|].
    destruct (columns df) as [|c cs]; simpl; [lia|exact Hle].
  - intros Hc Hnd. rewrite Hnd.
    destruct (columns df) as [|c cs]; [congruence|].
    eexists. eexists. split; [reflexivity|]. split; [reflexivity|exact Hle].
Qed.

Lemma threshold_sampling_monotone_witness :
  (retained (threshold_sampling (example_series 0 1 2 3) Relative 0.046)
   <= retained (threshold_sampling (example_series 0 1 2 3) Relative 0.01))%nat.
Proof.
  apply (threshold_sampling_monotone (example_series 0 1 2 3) Relative 0.01 0.046);
    reflexivity.
Defined.

(** ** Threshold Sampler: the comparison is on the signed change *)

(** On a one-column frame the selection of a row with change [d] reads: the
    change is not zero, and the change itself (the sentinel if it is
    missing), not its absolute value, reaches the threshold. *)
Lemma keep_row_one_column t r x d :
  cells r = [x] ->
  keep_row t (r, [d]) = F64.neqb d 0 && F64.geb (fillna (t + 1) d) t.
Proof.
  intros Hx. unfold keep_row. rewrite passes_merged. simpl.
  rewrite Hx. simpl. now rewrite orb_false_r.
Qed.

(** C1 at a failing input.  The series falls from 10.0 to 5.0: the relative
    change of row 1 is -0.5, it is not zero and its absolute value 0.5 is
    above the threshold 0.01, yet [threshold_sampling] drops row 1, because
    it compares -0.5 itself with the threshold. *)
Theorem threshold_sampling_drops_falling_row :
  changes Relative (rows falling_series) = [[nan]; [(-0.5)%float]]
  /\ F64.neqb (-0.5) 0 = true
  /\ F64.geb (abs (-0.5)) default_threshold_value = true
  /\ threshold_sampling falling_series Relative default_threshold_value
     = Ok (mkTable ["MIG"%string] [mkRow 0 [10.0%float]]).
Proof. repeat split. Qed.

(** * Properties of the Growth-Event Extractor *)

Local Open Scope string_scope.

(** C4 at a failing input.  One transition row for object A and two for
    object B: the counts are not all 2 and one of them (B's, a complete
    start/end pair) is above 1, so the status is the duplicate-name error and
    not the unmatched start/end counts one. *)
Theorem growth_time_one_and_two :
  let df := messages_log [(1, "A moved from LL to GC");
                          (2, "B moved from LL to GC");
                          (3, "B moved from GC to LL")]%Z in
  status_of (growth_time df) = Ok (Some duplicate_name_status)
  /\ duplicate_name_status <> unmatched_status.
Proof. split; [reflexivity|discriminate]. Qed.

(** C5 at a failing input.  Two transition rows, both for object A: the
    status is first set to the single-growth text and the start and end, the
    timestamps of rows 0 and 1, are printed; the test that follows ([if], not
    [elif]) holds as well for two rows and replaces the status. *)
Theorem growth_time_single_pair :
  let df := messages_log [(1, "A moved from LL to GC");
                          (2, "A moved from GC to LL")]%Z in
  status_of (growth_time df) = Ok (Some "2 growths detected with the names A.")
  /\ printed_by (growth_time df)
     = Ok [Stamped "Start of the Growth: " 1;
           Stamped "End of the Growth: " 2;
           Stamped "Start of the Growth A:" 1;
           Stamped "End of the Growth A:" 2;
           Line "2 growths detected with the names A."]
  /\ "2 growths detected with the names A." <> single_growth_status.
Proof. repeat split. discriminate. Qed.

(** The Messages log after [growth_time] dropped [CallerID] and [Color]. *)
Lemma messages_log_dropped ms :
  map (fun r => mkTextRow (TDate r) (select [false; true; false] (texts r)))
      (map (fun m => mkTextRow (fst m) [Some "EPIC"; Some (snd m); Some "Black"]) ms)
  = map (fun m => mkTextRow (fst m) [Some (snd m)]) ms.
Proof. rewrite map_map. reflexivity. Qed.

Lemma mask_rows_ext (t1 t2 : option string -> option bool) k rs :
  (forall c, t1 c = t2 c) -> mask_rows t1 k rs = mask_rows t2 k rs.
Proof.
  intros H. induction rs as [|r rs IH]; simpl; [reflexivity|].
  now rewrite H, IH.
Qed.

Lemma mask_rows_messages (f : string -> bool) ms :
  mask_rows (fun c => option_map f c) 0
            (map (fun m => mkTextRow (fst m) [Some (snd m)]) ms)
  = Ok (map (fun m => mkTextRow (fst m) [Some (snd m)])
            (filter (fun m => f (snd m)) ms)).
Proof.
  induction ms as [|m ms IH]; simpl; [reflexivity|].
  rewrite IH. simpl. destruct (f (snd m)); reflexivity.
Qed.

Lemma any_moved_messages ms :
  existsb (fun r => match cell_contains "moved from" (nth 0 (texts r) None) with
                    | Some true => true
                    | _ => false
                    end)
          (map (fun m => mkTextRow (fst m) [Some (snd m)]) ms)
  = existsb (fun m => contains "moved from" (snd m)) ms.
Proof.
  induction ms as [|m ms IH]; simpl; [reflexivity|].
  rewrite IH. destruct (contains "moved from" (snd m)); reflexivity.
Qed.

(** Without any "moved from" message [growth_time] raises on every Messages
    log whose [grow] attribute was not set before. *)
Lemma growth_time_no_moved_from ms :
  existsb (fun m => contains "moved from" (snd m)) ms = false ->
  growth_time (messages_log ms) = Raise AttributeError.
Proof.
  intros H. unfold growth_time, messages_log. cbn -[contains].
  rewrite messages_log_dropped, any_moved_messages, H. reflexivity.
Qed.

(** When there are "moved from" messages and all of them mention the Mirror,
    the status is the no-growth one. *)
Lemma growth_time_mirror_only ms :
  existsb (fun m => contains "moved from" (snd m)) ms = true ->
  forallb (fun m => contains "Mirror" (snd m))
          (filter (fun m => contains "moved from" (snd m)) ms) = true ->
  growth_time (messages_log ms)
  = Ok (mkDataFrame (Text ["Message"] []) None None (Some no_growth_status),
        [Line no_growth_status]).
Proof.
  intros Hany Hall. unfold growth_time, messages_log. cbn -[contains].
  rewrite messages_log_dropped, any_moved_messages, Hany.
  change (cell_contains "moved from") with (fun c => option_map (contains "moved from") c).
  rewrite mask_rows_messages. cbn -[contains].
  assert (E : filter (fun m => negb (contains "Mirror" (snd m)))
                     (filter (fun m => contains "moved from" (snd m)) ms) = []).
  { induction (filter (fun m => contains "moved from" (snd m)) ms) as [|m l IH];
      simpl in *; [reflexivity|].
    apply andb_true_iff in Hall. destruct Hall as [Hm Hl].
    rewrite Hm. simpl. auto. }
  rewrite (mask_rows_ext _ (fun c => option_map (fun x => negb (contains "Mirror" x)) c))
    by (intros [x|]; reflexivity).
  rewrite mask_rows_messages, E. reflexivity.
Qed.

(** C6 at a failing input.  No message contains "moved from": nothing
    assigns [df.grow] and [print(df.grow)] raises.  When every "moved from"
    row mentions the Mirror, the status is the no-growth one. *)
Theorem growth_time_without_moves :
  growth_time (messages_log [(1, "Shutter Ga opened")]%Z) = Raise AttributeError
  /\ status_of (growth_time (messages_log [(1, "Mirror moved from LL to GC")]%Z))
     = Ok (Some no_growth_status).
Proof. split; reflexivity. Qed.

(** * Properties of the Resampling Orchestrator *)

(** C7 at a failing input.  Two series without a Message column: the
    diagnostic of the first one is put on the last frame of the list, and the
    first frame ends without a status; the loop goes on to the second
    series and the call returns. *)
Theorem resampling_status_on_last_frame :
  forall resample_by_time,
    statuses (resampling resample_by_time [pressure_log; temperature_log]
                         0.5 0.2 "30S" "diff")
    = Ok [None; Some no_message_status]
    /\ printed_by_list
         (resampling resample_by_time [pressure_log; temperature_log]
                     0.5 0.2 "30S" "diff")
       = Ok [Line no_message_status; Line no_message_status].
Proof. intros rbt. split; reflexivity. Qed.

(** ** Lists updated by position *)

Lemma set_nth_length {A : Type} i (x : A) l :
  List.length (set_nth i x l) = List.length l.
Proof.
  unfold set_nth. rewrite length_app.
  rewrite <- (firstn_skipn i l) at 3. rewrite length_app. f_equal.
  destruct (skipn i l); reflexivity.
Qed.

Lemma update_nth_length {A : Type} i (f : A -> A) l :
  List.length (update_nth i f l) = List.length l.
Proof.
  unfold update_nth. destruct (nth_error l i); [apply set_nth_length|reflexivity].
Qed.

Lemma map_set_nth {A B : Type} (f : A -> B) i x l :
  map f (set_nth i x l) = set_nth i (f x) (map f l).
Proof.
  revert l. unfold set_nth.
  induction i as [|i IH]; intros [|a l]; simpl; try reflexivity.
  f_equal. apply IH.
Qed.

Lemma set_nth_same {A : Type} i (y : A) l :
  nth_error l i = Some y -> set_nth i y l = l.
Proof.
  revert l. unfold set_nth.
  induction i as [|i IH]; intros [|a l] H; simpl in *; try discriminate.
  - now injection H as ->.
  - f_equal. now apply IH.
Qed.

Lemma set_nth_twice {A : Type} i (x y : A) l :
  set_nth i x (set_nth i y l) = set_nth i x l.
Proof.
  revert l. unfold set_nth.
  induction i as [|i IH]; intros [|a l]; simpl; try reflexivity.
  f_equal. apply IH.
Qed.

Lemma nth_error_set_nth {A : Type} i (x y : A) l :
  nth_error l i = Some y -> nth_error (set_nth i x l) i = Some x.
Proof.
  revert l. unfold set_nth.
  induction i as [|i IH]; intros [|a l] H; simpl in *; try discriminate; auto.
Qed.

Lemma map_update_nth_same {A B : Type} (f : A -> B) (g : A -> A) i l :
  (forall x, f (g x) = f x) -> map f (update_nth i g l) = map f l.
Proof.
  intros H. unfold update_nth. destruct (nth_error l i) as [y|] eqn:E; [|reflexivity].
  rewrite map_set_nth, H. apply set_nth_same. now apply map_nth_error.
Qed.

Lemma nth_error_update_nth_some {A : Type} (g : A -> A) i j l (y : A) :
  nth_error l i = Some y -> exists z, nth_error (update_nth j g l) i = Some z.
Proof.
  intros H.
  assert (Hlt : (i < List.length (update_nth j g l))%nat).
  { rewrite update_nth_length. apply nth_error_Some. congruence. }
  apply nth_error_Some in Hlt.
  destruct (nth_error (update_nth j g l) i) as [z|]; [now exists z|congruence].
Qed.

Lemma nth_error_set_nth_other {A : Type} i j (x : A) l :
  i <> j -> nth_error (set_nth j x l) i = nth_error l i.
Proof.
  revert i l. unfold set_nth.
  induction j as [|j IH]; intros i l H.
  - destruct i as [|i]; [congruence|]. destruct l; reflexivity.
  - destruct l as [|a l]; [destruct i; reflexivity|].
    destruct i as [|i]; [reflexivity|].
    simpl. apply IH. congruence.
Qed.

(** ** The change-based mode samples at the default threshold *)

(** [growth_time] needs text: on a numeric frame it raises. *)
Lemma growth_time_numeric df t :
  body df = Numeric t -> exists e, growth_time df = Raise e.
Proof.
  intros H. unfold growth_time. rewrite H. cbn [labels_of].
  destruct (nth_error (columns t) 0); [|eauto].
  destruct (nth_error (columns t) 2); [|eauto].
  destruct (index_of _ _); eauto.
Qed.

Lemma has_label_body pats df df' :
  body df = body df' -> has_label pats df = has_label pats df'.
Proof.
  intros H. unfold has_label. now rewrite H.
Qed.

(** The two samplers in a row are the pipeline at 0.01. *)
Lemma sample_numeric change cut df t :
  body df = Numeric t ->
  sample threshold_sampling_call accumulated_sampling change cut df
  = t1 <- sampled_at_default change cut t ;; Ok (fresh (Numeric t1)).
Proof.
  intros H. unfold sample, sampled_at_default, threshold_sampling_call.
  rewrite H. change default_threshold_value with 0.01%float.
  destruct (threshold_sampling t change 0.01); reflexivity.
Qed.

Lemma sample_body change cut df df' :
  body df = body df' ->
  sample threshold_sampling_call accumulated_sampling change cut df
  = sample threshold_sampling_call accumulated_sampling change cut df'.
Proof.
  intros H. unfold sample. now rewrite H.
Qed.

Section Bodies.

Variable resample_by_time : string -> string -> DataFrame -> result DataFrame.
Variables percent_cut value_cut : float.
Variable resampling_period : string.

(** What [resample_diff] makes of a numeric frame of one or two columns. *)
Lemma resample_diff_numeric df t :
  body df = Numeric t ->
  Nat.ltb (List.length (columns t)) 3 = true ->
  resample_diff threshold_sampling_call accumulated_sampling
                percent_cut value_cut df
  = if has_label ["IG"; "MIG"; "PG"] df
    then
      t1 <- sampled_at_default Relative percent_cut t ;;
      if has_label ["PID"; "Pyro"] (fresh (Numeric t1))
      then t2 <- sampled_at_default Absolute value_cut t1 ;;
           Ok (fresh (Numeric t2))
      else Ok (fresh (Numeric t1))
    else
      if has_label ["PID"; "Pyro"] df
      then t1 <- sampled_at_default Absolute value_cut t ;;
           Ok (fresh (Numeric t1))
      else Ok df.
Proof.
  intros H Hlt. unfold resample_diff. rewrite H. cbn [labels_of]. rewrite Hlt.
  destruct (has_label ["IG"; "MIG"; "PG"] df).
  - rewrite (sample_numeric Relative percent_cut df t H).
    destruct (sampled_at_default Relative percent_cut t) as [t1|e];
      [|reflexivity].
    cbn [bind].
    destruct (has_label ["PID"; "Pyro"] (fresh (Numeric t1))); [|reflexivity].
    apply (sample_numeric Absolute value_cut (fresh (Numeric t1)) t1 eq_refl).
  - cbn [bind]. destruct (has_label ["PID"; "Pyro"] df); [|reflexivity].
    apply (sample_numeric Absolute value_cut df t H).
Qed.

(** The body [resample_diff] returns depends on the body it is given only,
    not on the attributes. *)
Lemma resample_diff_body df df' :
  body df = body df' ->
  (d <- resample_diff threshold_sampling_call accumulated_sampling
                      percent_cut value_cut df ;; Ok (body d))
  = (d <- resample_diff threshold_sampling_call accumulated_sampling
                        percent_cut value_cut df' ;; Ok (body d)).
Proof.
  intros H. unfold resample_diff. rewrite <- H.
  destruct (Nat.ltb _ 3); [|cbn [bind]; now rewrite H].
  rewrite <- (has_label_body ["IG"; "MIG"; "PG"] df df' H).
  rewrite <- (sample_body Relative percent_cut df df' H).
  destruct (has_label ["IG"; "MIG"; "PG"] df); [reflexivity|].
  cbn [bind].
  rewrite <- (has_label_body ["PID"; "Pyro"] df df' H).
  rewrite <- (sample_body Absolute value_cut df df' H).
  destruct (has_label ["PID"; "Pyro"] df); [reflexivity|].
  cbn [bind]. now rewrite H.
Qed.

Lemma resample_diff_keeps_numeric df t df1 :
  body df = Numeric t ->
  resample_diff threshold_sampling_call accumulated_sampling
                percent_cut value_cut df = Ok df1 ->
  exists t1, body df1 = Numeric t1.
Proof.
  intros H. unfold resample_diff.
  destruct (Nat.ltb _ 3); [|intros [= <-]; eauto].
  assert (Hs : forall change cut d t0 d1,
             body d = Numeric t0 ->
             sample threshold_sampling_call accumulated_sampling change cut d = Ok d1 ->
             exists t1, body d1 = Numeric t1).
  { intros change cut d t0 d1 Hd. rewrite (sample_numeric change cut d t0 Hd).
    destruct (sampled_at_default change cut t0) as [t1|e]; [|discriminate].
    cbn [bind]. intros [= <-]. simpl. eauto. }
  destruct (has_label ["IG"; "MIG"; "PG"] df).
  - destruct (sample _ _ Relative percent_cut df) as [d1|e] eqn:E1; [|discriminate].
    cbn [bind]. destruct (Hs _ _ _ _ _ H E1) as [t1 H1].
    destruct (has_label ["PID"; "Pyro"] d1).
    + intros E2. apply (Hs _ _ _ _ _ H1 E2).
    + intros [= <-]. eauto.
  - cbn [bind]. destruct (has_label ["PID"; "Pyro"] df).
    + intros E2. apply (Hs _ _ _ _ _ H E2).
    + intros [= <-]. eauto.
Qed.

(** One turn of the loop rewrites the body at its own position only; on a
    numeric frame the body left there is the one [resample_diff] returned. *)
Lemma resampling_step_bodies i l o l' o' :
  resampling_step threshold_sampling_call accumulated_sampling resample_by_time
                  percent_cut value_cut resampling_period "diff" i (l, o)
  = Ok (l', o') ->
  exists df df1,
    nth_error l i = Some df
    /\ resample_diff threshold_sampling_call accumulated_sampling
                     percent_cut value_cut df = Ok df1
    /\ (exists b, map body l' = set_nth i b (map body l))
    /\ ((exists t1, body df1 = Numeric t1) ->
        map body l' = set_nth i (body df1) (map body l)).
Proof.
  unfold resampling_step.
  destruct (nth_error l i) as [df|] eqn:Ei; [|discriminate].
  destruct (comment df) as [c|]; [|discriminate].
  destruct (name df) as [n|]; [|discriminate].
  cbn [attribute bind]. change (String.eqb "diff" "diff") with true. cbv iota.
  destruct (resample_diff _ _ percent_cut value_cut df) as [df1|e] eqn:Ed;
    [|discriminate].
  cbn [bind]. intros H. exists df, df1. split; [reflexivity|]. split; [exact Ed|].
  destruct (has_label ["Message"] df1).
  - destruct (growth_time df1) as [[g pr]|e] eqn:Eg; [|discriminate].
    cbn [bind fst snd] in H. injection H as <- _.
    rewrite (map_update_nth_same body (set_comment_name c n) i _ (fun x => eq_refl)).
    rewrite !map_set_nth, set_nth_twice. split; [eauto|].
    intros [t1 H1]. destruct (growth_time_numeric df1 t1 H1) as [e He].
    congruence.
  - cbn [bind fst snd] in H. injection H as <- _.
    rewrite (map_update_nth_same body (set_comment_name c n) i _ (fun x => eq_refl)).
    rewrite (map_update_nth_same body (set_grow no_message_status) _ _
               (fun x => eq_refl)).
    rewrite map_set_nth. split; eauto.
Qed.

(** The loop, position by position: a position that is not visited keeps its
    body; a numeric frame at a visited position ends with the body
    [resample_diff] gives for it. *)
Lemma resampling_loop_bodies todo :
  NoDup todo ->
  forall l o out pr,
    resampling_loop threshold_sampling_call accumulated_sampling resample_by_time
                    percent_cut value_cut resampling_period "diff" todo (l, o)
    = Ok (out, pr) ->
    forall i,
      (~ In i todo -> nth_error (map body out) i = nth_error (map body l) i)
      /\ (In i todo ->
          forall df t,
            nth_error l i = Some df -> body df = Numeric t ->
            exists df1,
              resample_diff threshold_sampling_call accumulated_sampling
                            percent_cut value_cut df = Ok df1
              /\ nth_error (map body out) i = Some (body df1)).
Proof.
  induction 1 as [|j todo Hj Hnd IH]; intros l o out pr H i.
  - simpl in H. injection H as <- _. split; [reflexivity|intros []].
  - cbn [resampling_loop] in H.
    destruct (resampling_step threshold_sampling_call accumulated_sampling
                resample_by_time percent_cut value_cut resampling_period
                "diff" j (l, o)) as [[l1 o1]|e] eqn:Es;
      [|discriminate].
    cbn [bind] in H.
    destruct (resampling_step_bodies j l o l1 o1 Es)
      as (dj & dj1 & Ej & Edj & [b Hb] & Hnum).
    split.
    + intros Hn.
      assert (i <> j) by (intros ->; apply Hn; now left).
      assert (~ In i todo) by (intros Hi; apply Hn; now right).
      rewrite (proj1 (IH l1 o1 out pr H i)) by assumption.
      rewrite Hb. now apply nth_error_set_nth_other.
    + intros Hi df t Ei Hbody.
      destruct (Nat.eq_dec i j) as [->|Hij].
      * rewrite Ej in Ei. injection Ei as ->.
        exists dj1. split; [exact Edj|].
        rewrite (proj1 (IH l1 o1 out pr H j) Hj).
        rewrite (Hnum (resample_diff_keeps_numeric df t dj1 Hbody Edj)).
        apply (nth_error_set_nth j (body dj1) (body df)).
        now apply map_nth_error.
      * destruct Hi as [->|Hi]; [congruence|].
        assert (E1 : nth_error (map body l1) i = Some (body df)).
        { rewrite Hb, (nth_error_set_nth_other i j b _ Hij).
          now apply map_nth_error. }
        rewrite nth_error_map in E1.
        destruct (nth_error l1 i) as [df'|] eqn:Ei1; [|discriminate].
        injection E1 as E1.
        destruct (proj2 (IH l1 o1 out pr H i) Hi df' t Ei1 (eq_trans E1 Hbody))
          as (d1 & Ed1 & Eout).
        pose proof (resample_diff_body df' df E1) as Hsame.
        rewrite Ed1 in Hsame. cbn [bind] in Hsame.
        destruct (resample_diff _ _ percent_cut value_cut df) as [d|e];
          [|discriminate].
        cbn [bind] in Hsame. injection Hsame as Hsame.
        exists d. split; [reflexivity|]. now rewrite Eout, Hsame.
Qed.

End Bodies.

(** C9.  In the change-based mode a numeric series of one or two columns
    leaves [resampling] as what the Threshold Sampler at its default 0.01
    followed by the Accumulated Sampler at the user's cut make of it,
    wherever it stands in the list: a pressure-like series (IG, MIG, PG) has
    gone through the relative pipeline at [percent_cut], and through the
    absolute one at [value_cut] after that if a label then matches PID or
    Pyro; a temperature-like series that is not pressure-like has gone
    through the absolute pipeline at [value_cut]; any other series is left
    as it was.  The cuts appear as the threshold of [accumulated_sampling]
    only, and [threshold_sampling] has returned at 0.01 each time. *)
Theorem resampling_threshold_is_default :
  forall (resample_by_time : string -> string -> DataFrame -> result DataFrame)
         (dataframe_list out : list DataFrame) (pr : list printed)
         (i : nat) (df : DataFrame) (t : Table)
         (percent_cut value_cut : float) (resampling_period : string),
    nth_error dataframe_list i = Some df ->
    body df = Numeric t ->
    Nat.ltb (List.length (columns t)) 3 = true ->
    resampling resample_by_time dataframe_list percent_cut value_cut
               resampling_period "diff" = Ok (out, pr) ->
    (has_label ["IG"; "MIG"; "PG"] df = true ->
     exists t1,
       threshold_sampling t Relative 0.01 = Ok t1
       /\ (has_label ["PID"; "Pyro"]
                     (fresh (Numeric (accumulated_sampling t1 Relative percent_cut)))
           = false ->
           option_map body (nth_error out i)
           = Some (Numeric (accumulated_sampling t1 Relative percent_cut)))
       /\ (has_label ["PID"; "Pyro"]
                     (fresh (Numeric (accumulated_sampling t1 Relative percent_cut)))
           = true ->
           exists t2,
             threshold_sampling (accumulated_sampling t1 Relative percent_cut)
                                Absolute 0.01 = Ok t2
             /\ option_map body (nth_error out i)
                = Some (Numeric (accumulated_sampling t2 Absolute value_cut))))
    /\ (has_label ["IG"; "MIG"; "PG"] df = false ->
        has_label ["PID"; "Pyro"] df = true ->
        exists t1,
          threshold_sampling t Absolute 0.01 = Ok t1
          /\ option_map body (nth_error out i)
             = Some (Numeric (accumulated_sampling t1 Absolute value_cut)))
    /\ (has_label ["IG"; "MIG"; "PG"] df = false ->
        has_label ["PID"; "Pyro"] df = false ->
        option_map body (nth_error out i) = Some (Numeric t)).
Proof.
  intros rbt l out pr i df t pc vc period Ei Hbody Hlt H.
  unfold resampling, resampling_with in H.
  assert (Hin : In i (seq 0 (List.length l))).
  { apply in_seq. split; [lia|]. simpl. apply nth_error_Some. congruence. }
  destruct (proj2 (resampling_loop_bodies rbt pc vc period _ (seq_NoDup _ _)
                     l [] out pr H i) Hin df t Ei Hbody) as (df1 & Ed & Eout).
  rewrite nth_error_map in Eout.
  rewrite (resample_diff_numeric pc vc df t Hbody Hlt) in Ed.
  assert (Hp : forall change cut t0 t1,
             sampled_at_default change cut t0 = Ok t1 ->
             exists t', threshold_sampling t0 change 0.01 = Ok t'
                        /\ t1 = accumulated_sampling t' change cut).
  { intros change cut t0 t1. unfold sampled_at_default.
    destruct (threshold_sampling t0 change 0.01) as [t'|e]; [|discriminate].
    intros [= <-]. eauto. }
  split; [|split].
  - intros HP. rewrite HP in Ed.
    destruct (sampled_at_default Relative pc t) as [t1|e] eqn:E1; [|discriminate].
    cbn [bind] in Ed. destruct (Hp _ _ _ _ E1) as (t' & Et' & ->).
    exists t'. split; [exact Et'|]. split.
    + intros HT. rewrite HT in Ed. injection Ed as <-. exact Eout.
    + intros HT. rewrite HT in Ed.
      destruct (sampled_at_default Absolute vc _) as [t2|e] eqn:E2; [|discriminate].
      cbn [bind] in Ed. destruct (Hp _ _ _ _ E2) as (t'' & Et'' & ->).
      injection Ed as <-. exists t''. split; [exact Et''|exact Eout].
  - intros HP HT. rewrite HP, HT in Ed.
    destruct (sampled_at_default Absolute vc t) as [t1|e] eqn:E1; [|discriminate].
    cbn [bind] in Ed. destruct (Hp _ _ _ _ E1) as (t' & Et' & ->).
    injection Ed as <-. exists t'. split; [exact Et'|exact Eout].
  - intros HP HT. rewrite HP, HT in Ed. injection Ed as <-.
    now rewrite Eout, Hbody.
Qed.

Lemma resampling_threshold_is_default_witness :
  exists out pr t1,
    resampling (fun _ _ df => Ok df) [pressure_log; temperature_log]
               0.5 0.2 "30S" "diff" = Ok (out, pr)
    /\ threshold_sampling
         (mkTable ["MIG"%string] [mkRow 0 [10.0%float]; mkRow 1 [11.0%float]])
         Relative 0.01 = Ok t1
    /\ option_map body (nth_error out 0)
       = Some (Numeric (accumulated_sampling t1 Relative 0.5)).
Proof.
  destruct (resampling (fun _ _ df => Ok df) [pressure_log; temperature_log]
                       0.5 0.2 "30S" "diff") as [[out pr]|e] eqn:E.
  - exists out, pr.
    destruct (proj1 (resampling_threshold_is_default
                       (fun _ _ df => Ok df) [pressure_log; temperature_log]
                       out pr 0 pressure_log _ 0.5 0.2 "30S"
                       eq_refl eq_refl eq_refl E) eq_refl)
      as (t1 & Et & Hno & _).
    exists t1. split; [reflexivity|]. split; [exact Et|].
    apply Hno. vm_compute in Et. injection Et as <-. reflexivity.
  - vm_compute in E. discriminate E.
Defined.

(** * Further properties of the Threshold Sampler *)

Local Open Scope list_scope.


Lemma Subseq_refl {A : Type} (l : list A) : Subseq l l.
Proof. induction l; [apply Subseq_nil|apply Subseq_take; assumption]. Qed.

Lemma Subseq_incl {A : Type} (l1 l2 : list A) : Subseq l1 l2 -> incl l1 l2.
Proof.
  induction 1; intros y Hy.
  - exact Hy.
  - right. auto.
  - destruct Hy as [->|Hy]; [now left|right; auto].
Qed.

Lemma Subseq_length {A : Type} (l1 l2 : list A) :
  Subseq l1 l2 -> (List.length l1 <= List.length l2)%nat.
Proof. induction 1; simpl; lia. Qed.

Lemma Subseq_map {A B : Type} (f : A -> B) (l1 l2 : list A) :
  Subseq l1 l2 -> Subseq (map f l1) (map f l2).
Proof.
  induction 1; simpl;
    [apply Subseq_nil|apply Subseq_skip|apply Subseq_take]; assumption.
Qed.

Lemma first_column_reduce t r ch :
  has_cell r = true -> first_column t (r, ch) = reduce t r.
Proof.
  unfold has_cell, first_column, reduce, merged_cells, iloc0. simpl.
  destruct (cells r) as [|x l]; [discriminate|reflexivity].
Qed.




(** Row 0 of a one-column frame passes the selection for every threshold
    that is a number: its change is missing, which counts as not zero, and
    the sentinel put in its place is at least the threshold. *)
Lemma keep_first_row t r x :
  is_nan t = false -> cells r = [x] -> keep_row t (r, [nan]) = true.
Proof.
  intros Ht Hx. rewrite (keep_row_one_column t r x nan Hx).
  change (fillna (t + 1) nan) with (t + 1)%float.
  now rewrite (F64Facts.sentinel_passes t Ht).
Qed.

(** The forward fill at work: in relative mode the rows with a missing value
    after 10.0 have change 0 and are left out, and 12.0 is compared with
    10.0; in absolute mode nothing is filled, their changes are missing and
    the rows stay, with the sentinel as their value. *)
Lemma threshold_sampling_missing_values :
  threshold_sampling
    (mkTable ["MIG"%string]
             [mkRow 0 [10.0%float]; mkRow 1 [nan]; mkRow 2 [nan]; mkRow 3 [12.0%float]])
    Relative 0.01
  = Ok (mkTable ["MIG"%string] [mkRow 0 [10.0%float]; mkRow 3 [12.0%float]])
  /\ threshold_sampling
       (mkTable ["MIG"%string]
                [mkRow 0 [10.0%float]; mkRow 1 [nan]; mkRow 2 [nan]; mkRow 3 [12.0%float]])
       Absolute 0.01
     = Ok (mkTable ["MIG"%string]
                   [mkRow 0 [10.0%float]; mkRow 1 [1.01%float];
                    mkRow 2 [1.01%float]; mkRow 3 [12.0%float]]).
Proof. split; reflexivity. Qed.

(** The first row of [pct_change] and of [diff] is missing throughout. *)
Lemma changes_first_row change r0 rest :
  exists more,
    changes change (r0 :: rest) = map (fun _ => nan) (cells r0) :: more.
Proof.
  destruct change; unfold changes, ffill; simpl; eexists; reflexivity.
Qed.

(** X2.  On a non-empty one-column frame with pairwise distinct timestamps,
    [threshold_sampling] retains row 0 for every threshold that is a number,
    however large: the first row of the output is row 0 (its value, or the
    sentinel if the value is missing). *)
Theorem threshold_sampling_keeps_first_row :
  forall (label : string) (r0 : Row) (rest : list Row) (x : float)
         (change : Change) (threshold_value : float),
    cells r0 = [x] ->
    is_nan threshold_value = false ->
    has_duplicates (dates (r0 :: rest)) = false ->
    exists more,
      threshold_sampling (mkTable [label] (r0 :: rest)) change threshold_value
      = Ok (mkTable [threshold_label label] (reduce threshold_value r0 :: more)).
Proof.
  intros label r0 rest x change t Hx Ht Hnd.
  unfold threshold_sampling. simpl rows. simpl columns. rewrite Hnd.
  unfold threshold_rows.
  destruct (changes_first_row change r0 rest) as [more ->].
  rewrite Hx. simpl map at 1.
  cbn [combine filter].
  rewrite (keep_first_row t r0 x Ht Hx). cbn [map].
  rewrite first_column_reduce by (unfold has_cell; now rewrite Hx).
  eexists. reflexivity.
Qed.

Lemma threshold_sampling_keeps_first_row_witness :
  exists more,
    threshold_sampling (mkTable ["MIG"%string] [mkRow 0 [10.0%float]; mkRow 1 [5.0%float]])
                       Relative 1000000
    = Ok (mkTable [threshold_label "MIG"] (reduce 1000000 (mkRow 0 [10.0%float]) :: more)).
Proof.
  apply (threshold_sampling_keeps_first_row "MIG" (mkRow 0 [10.0%float])
           [mkRow 1 [5.0%float]] 10.0%float Relative 1000000); reflexivity.
Defined.

(** The change of a value against itself is zero. *)
Lemma cell_change_self change x :
  F64.finite x = true ->
  (change = Relative -> F64.nonzero x = true) ->
  cell_change change x x = 0%float.
Proof.
  intros Hf Hn. destruct change; simpl.
  - rewrite (F64Facts.div_self x Hf (Hn eq_refl)). reflexivity.
  - apply F64Facts.sub_self, Hf.
Qed.

Lemma dates_constant_series x ds : dates (constant_series x ds) = ds.
Proof.
  unfold dates, constant_series. rewrite map_map. simpl. apply map_id.
Qed.

(** The forward fill leaves a series without missing values as it is. *)
Lemma ffill_constant_series x ds :
  F64.finite x = true ->
  ffill_from (Some [x]) (constant_series x ds) = constant_series x ds.
Proof.
  intros Hf. induction ds as [|d ds IH]; simpl; [reflexivity|].
  rewrite (F64Facts.fillna_finite x x Hf). f_equal. apply IH.
Qed.

Lemma changes_constant_series change x d ds :
  F64.finite x = true ->
  changes change (constant_series x (d :: ds))
  = [nan] :: changes_from change (Some (mkRow d [x])) (constant_series x ds).
Proof.
  intros Hf. destruct change; unfold changes, ffill; simpl; [|reflexivity].
  fold (constant_series x ds). now rewrite (ffill_constant_series x ds Hf).
Qed.

Lemma constant_series_dropped change t x ds :
  F64.finite x = true ->
  (change = Relative -> F64.nonzero x = true) ->
  forall d0,
    filter (keep_row t)
           (combine (constant_series x ds)
                    (changes_from change (Some (mkRow d0 [x])) (constant_series x ds)))
    = [].
Proof.
  intros Hf Hn. induction ds as [|d ds IH]; intros d0; simpl; [reflexivity|].
  rewrite (cell_change_self change x Hf Hn).
  rewrite (keep_row_one_column t (mkRow d [x]) x 0 eq_refl).
  change (F64.neqb 0 0) with false. simpl. apply IH.
Qed.

(** [threshold_sampling] on a series that stays at one value. *)
Lemma constant_series_threshold_sampled :
  forall (label : string) (x : float) (d : Z) (ds : list Z)
         (change : Change) (threshold_value : float),
    F64.finite x = true ->
    (change = Relative -> F64.nonzero x = true) ->
    is_nan threshold_value = false ->
    has_duplicates (d :: ds) = false ->
    threshold_sampling (mkTable [label] (constant_series x (d :: ds)))
                       change threshold_value
    = Ok (mkTable [threshold_label label] [mkRow d [x]]).
Proof.
  intros label x d ds change t Hf Hn Ht Hnd.
  unfold threshold_sampling. cbn [rows columns].
  rewrite dates_constant_series, Hnd.
  unfold threshold_rows. rewrite (changes_constant_series change x d ds Hf).
  simpl constant_series.
  cbn [combine filter].
  rewrite (keep_first_row t (mkRow d [x]) x Ht eq_refl).
  fold (constant_series x ds).
  rewrite (constant_series_dropped change t x ds Hf Hn d).
  cbn [map]. unfold first_column, merged_cells, fillna. simpl.
  rewrite (F64Facts.finite_not_nan x Hf). reflexivity.
Qed.

(** X3.  A one-column series that stays at one finite value (not zero in
    relative mode) is cut down by [threshold_sampling] to its first row, for
    every threshold that is a number: a row that repeats the row above has
    change zero and is dropped before the threshold is looked at. *)
Theorem threshold_sampling_constant_series :
  forall (label : string) (x : float) (d : Z) (ds : list Z)
         (change : Change) (threshold_value : float),
    F64.finite x = true ->
    (change = Relative -> F64.nonzero x = true) ->
    is_nan threshold_value = false ->
    has_duplicates (d :: ds) = false ->
    threshold_sampling (mkTable [label] (constant_series x (d :: ds)))
                       change threshold_value
    = Ok (mkTable [threshold_label label] [mkRow d [x]]).
Proof.
  exact constant_series_threshold_sampled.
Qed.

Lemma threshold_sampling_constant_series_witness :
  threshold_sampling (mkTable ["MIG"%string] (constant_series 2.5 [0; 1; 2; 3]%Z))
                     Relative 0.01
  = Ok (mkTable [threshold_label "MIG"] [mkRow 0 [2.5%float]]).
Proof.
  apply (threshold_sampling_constant_series "MIG" 2.5 0 [1; 2; 3]%Z Relative 0.01);
    reflexivity.
Defined.

(** * Further properties of the Accumulated Sampler *)

Lemma accumulate_subseq change t rs :
  forall last, Subseq (accumulate change t last rs) rs.
Proof.
  induction rs as [|r rs IH]; intros last; simpl.
  - apply Subseq_nil.
  - destruct (F64.geb _ t); [apply Subseq_take|apply Subseq_skip]; apply IH.
Qed.

(** The rows gathered by the loop of [accumulated_sampling]. *)
Lemma dataframe_change_invariant :
  forall (change : Change) (threshold_value : float) (r0 : Row) (rest : list Row),
    chained change threshold_value
            (dataframe_change change threshold_value (r0 :: rest))
    /\ exists appended,
         dataframe_change change threshold_value (r0 :: rest) = r0 :: appended
         /\ Subseq appended (r0 :: rest).
Proof.
  intros change t r0 rest. split.
  - unfold dataframe_change.
    generalize (r0 :: rest) as rs. generalize r0 as last.
    intros last rs. revert last.
    induction rs as [|r rs IH]; intros last; simpl; [exact I|].
    destruct (F64.geb (condition change (iloc0 last) (iloc0 r)) t) eqn:E.
    + split; [exact E|apply IH].
    + apply IH.
  - exists (accumulate change t r0 (r0 :: rest)). split; [reflexivity|].
    apply accumulate_subseq.
Qed.

(** The forward fill at work: with threshold 0 in relative mode the row with
    the missing value compares as unchanged and is appended; [dropna] takes
    it out of the frame returned. *)
Lemma dataframe_change_missing_value :
  dataframe_change Relative 0 [mkRow 0 [10.0%float]; mkRow 1 [nan]]
  = [mkRow 0 [10.0%float]; mkRow 0 [10.0%float]; mkRow 1 [nan]]
  /\ rows (accumulated_sampling
             (mkTable ["MIG"%string] [mkRow 0 [10.0%float]; mkRow 1 [nan]])
             Relative 0)
     = [mkRow 0 [10.0%float]; mkRow 0 [10.0%float]].
Proof. split; reflexivity. Qed.


(** The rows of [other] labelled like [r]. *)
Lemma flat_map_ext_in {A B : Type} (f g : A -> list B) l :
  (forall a, In a l -> f a = g a) -> flat_map f l = flat_map g l.
Proof.
  induction l as [|a l IH]; simpl; intros H; [reflexivity|].
  rewrite (H a (or_introl eq_refl)), IH; auto.
Qed.

Lemma partners_of_subseq (A rs : list Row) :
  Subseq A rs -> NoDup (dates rs) ->
  flat_map (fun r => filter (fun c => Z.eqb (Date c) (Date r)) A) rs = A.
Proof.
  induction 1 as [|x A l2 Hs IH|x A l2 Hs IH]; intros Hnd.
  - reflexivity.
  - inversion Hnd as [|? ? Hx Hl]; subst. simpl.
    rewrite filter_date_absent, IH; auto.
    intros Hin. apply Hx.
    apply (Subseq_incl _ _ (Subseq_map Date _ _ Hs)). exact Hin.
  - inversion Hnd as [|? ? Hx Hl]; subst. simpl.
    rewrite Z.eqb_refl, filter_date_absent.
    2:{ intros Hin. apply Hx.
        apply (Subseq_incl _ _ (Subseq_map Date _ _ Hs)). exact Hin. }
    simpl. f_equal.
    transitivity (flat_map (fun r => filter (fun c => Z.eqb (Date c) (Date r)) A) l2);
      [|exact (IH Hl)].
    apply flat_map_ext_in. intros r Hr. simpl.
    destruct (Z.eqb_spec (Date x) (Date r)) as [E|E]; [|reflexivity].
    exfalso. apply Hx. rewrite E. now apply in_map.
Qed.

Lemma partners_seeded r0 rest A :
  Subseq A (r0 :: rest) -> NoDup (dates (r0 :: rest)) ->
  flat_map (fun r => filter (fun c => Z.eqb (Date c) (Date r)) (r0 :: A)) (r0 :: rest)
  = r0 :: A.
Proof.
  intros Hs Hnd.
  transitivity
    (r0 :: flat_map (fun r => filter (fun c => Z.eqb (Date c) (Date r)) A) (r0 :: rest));
    [|now rewrite (partners_of_subseq A (r0 :: rest) Hs Hnd)].
  inversion Hnd as [|? ? Hx Hl]; subst.
  simpl. rewrite Z.eqb_refl. simpl. do 2 f_equal.
  apply flat_map_ext_in. intros r Hr.
  destruct (Z.eqb_spec (Date r0) (Date r)) as [E|E]; [|reflexivity].
  exfalso. apply Hx. rewrite E. now apply in_map.
Qed.

Lemma one_value_cells r :
  one_value r = true -> exists x, cells r = [x] /\ is_nan x = false.
Proof.
  unfold one_value. destruct (cells r) as [|x [|y l]]; try discriminate.
  intros H. exists x. split; [reflexivity|]. now apply negb_true_iff in H.
Qed.

Lemma restore_partners d x l :
  (forall c, In c l -> Date c = d /\ one_value c = true) ->
  filter no_missing
    (map drop_first (map (fun c => mkRow d ([x] ++ cells c)) l)) = l.
Proof.
  induction l as [|c l IH]; intros H; [reflexivity|].
  destruct (H c (or_introl eq_refl)) as [Hd Hc].
  destruct (one_value_cells c Hc) as (y & Hy & Hn).
  assert (Hh : drop_first (mkRow d ([x] ++ cells c)) = c).
  { destruct c as [dc cc]. simpl in *. now subst. }
  assert (Hnm : no_missing c = true).
  { unfold no_missing. rewrite Hy. simpl. now rewrite Hn. }
  cbn [map filter]. rewrite Hh, Hnm.
  rewrite IH by (intros c' Hc'; apply H; now right). reflexivity.
Qed.

Lemma join_one_value rs other :
  forallb one_value rs = true ->
  forallb one_value other = true ->
  filter no_missing (map drop_first (join 1 rs other))
  = flat_map (fun r => filter (fun c => Z.eqb (Date c) (Date r)) other) rs.
Proof.
  intros Hrs Ho. unfold join.
  induction rs as [|r rs IH]; simpl; [reflexivity|].
  simpl in Hrs. apply andb_true_iff in Hrs. destruct Hrs as [Hr Hrs].
  rewrite map_app, filter_app, (IH Hrs). f_equal.
  destruct (one_value_cells r Hr) as (x & Hx & Hn).
  unfold join_row.
  destruct (filter (fun c => Z.eqb (Date c) (Date r)) other) as [|m ms] eqn:E.
  - rewrite Hx. reflexivity.
  - rewrite Hx. apply restore_partners.
    intros c Hc. rewrite <- E in Hc. apply filter_In in Hc. destruct Hc as [Hin Hd].
    split; [now apply Z.eqb_eq|].
    rewrite forallb_forall in Ho. now apply Ho.
Qed.

Lemma forallb_subseq {A : Type} (p : A -> bool) l1 l2 :
  Subseq l1 l2 -> forallb p l2 = true -> forallb p l1 = true.
Proof.
  induction 1 as [|x l1 l2 Hs IH|x l1 l2 Hs IH]; simpl; intros Hp; auto.
  - apply andb_true_iff in Hp. destruct Hp; auto.
  - apply andb_true_iff in Hp. destruct Hp as [Hx Hl]. rewrite Hx; simpl; auto.
Qed.

(** The join at the end of [accumulated_sampling] on a one-column frame. *)
Lemma accumulated_sampling_retained_rows :
  forall (df : Table) (label : string) (change : Change) (threshold_value : float),
    columns df = [label] ->
    has_duplicates (dates (rows df)) = false ->
    forallb one_value (rows df) = true ->
    rows (accumulated_sampling df change threshold_value)
    = dataframe_change change threshold_value (rows df)
    /\ chained change threshold_value
               (rows (accumulated_sampling df change threshold_value))
    /\ (List.length (rows (accumulated_sampling df change threshold_value))
        <= S (List.length (rows df)))%nat.
Proof.
  intros df label change t Hc Hnd Hv.
  assert (E : rows (accumulated_sampling df change t)
              = dataframe_change change t (rows df)).
  { unfold accumulated_sampling, empty. rewrite Hc.
    destruct (rows df) as [|r0 rest] eqn:Hr; [now rewrite Hr|].
    cbn [rows List.length]. unfold accumulated_rows, dataframe_change.
    pose proof (accumulate_subseq change t (r0 :: rest) r0) as Hs.
    rewrite join_one_value; auto.
    - apply partners_seeded; [exact Hs|now apply has_duplicates_NoDup].
    - pose proof Hv as Hv'. simpl in Hv'.
      apply andb_true_iff in Hv'. destruct Hv' as [H0 _].
      cbn [forallb]. rewrite H0. simpl.
      apply (forallb_subseq _ _ _ Hs). exact Hv. }
  rewrite E. split; [reflexivity|].
  destruct (rows df) as [|r0 rest]; [simpl; split; [exact I|lia]|].
  destruct (dataframe_change_invariant change t r0 rest) as [Hch (app & Ea & Hs)].
  split; [exact Hch|].
  rewrite Ea. simpl. apply le_n_S. apply (Subseq_length _ _ Hs).
Qed.

(** X5.  On a one-column frame without missing values and with pairwise
    distinct timestamps, the join, drop and [dropna] at the end of
    [accumulated_sampling] give back exactly [dataframe_change]: the output
    is the seed row followed by the rows the loop appended (a subsequence of
    the input), so it has at most one row more than the input, and each of
    its rows reaches the threshold against the row before it. *)
Theorem accumulated_sampling_returns_retained :
  forall (df : Table) (label : string) (change : Change) (threshold_value : float),
    columns df = [label] ->
    has_duplicates (dates (rows df)) = false ->
    forallb one_value (rows df) = true ->
    rows (accumulated_sampling df change threshold_value)
    = dataframe_change change threshold_value (rows df)
    /\ chained change threshold_value
               (rows (accumulated_sampling df change threshold_value))
    /\ (List.length (rows (accumulated_sampling df change threshold_value))
        <= S (List.length (rows df)))%nat.
Proof.
  exact accumulated_sampling_retained_rows.
Qed.

Lemma accumulated_sampling_returns_retained_witness :
  rows (accumulated_sampling (example_series 0 1 2 3) Relative 2)
  = dataframe_change Relative 2 (rows (example_series 0 1 2 3)).
Proof.
  exact (proj1 (accumulated_sampling_returns_retained
                  (example_series 0 1 2 3) "MIG" Relative 2 eq_refl eq_refl eq_refl)).
Defined.

Lemma join_row_dates w other r x :
  In x (join_row w other r) -> Date x = Date r.
Proof.
  unfold join_row.
  destruct (filter _ other) as [|m ms]; simpl.
  - intros [<-|[]]. reflexivity.
  - intros [<-|H]; [reflexivity|].
    apply in_map_iff in H. destruct H as (c & <- & _). reflexivity.
Qed.

Lemma accumulated_rows_dates w change t rs :
  incl (dates (accumulated_rows w change t rs)) (dates rs).
Proof.
  intros d Hd. unfold dates, accumulated_rows in *.
  apply in_map_iff in Hd. destruct Hd as (x & <- & Hx).
  apply filter_In in Hx. destruct Hx as [Hx _].
  apply in_map_iff in Hx. destruct Hx as (y & <- & Hy).
  unfold join in Hy. apply in_flat_map in Hy. destruct Hy as (r & Hr & Hy).
  simpl. rewrite (join_row_dates _ _ _ _ Hy). now apply in_map.
Qed.

(** The timestamps of the output of [accumulated_sampling]. *)
Lemma accumulated_sampling_dates_incl :
  forall (df : Table) (change : Change) (threshold_value : float),
    incl (dates (rows (accumulated_sampling df change threshold_value)))
         (dates (rows df)).
Proof.
  intros df change t. unfold accumulated_sampling.
  destruct (empty df); [apply incl_refl|]. simpl rows.
  apply accumulated_rows_dates.
Qed.

(** X6.  For every frame, mode and threshold, each timestamp in the output
    of [accumulated_sampling] is a timestamp of the input: the sampler leaves
    rows out (or repeats one) and never makes up an index label. *)
Theorem accumulated_sampling_dates :
  forall (df : Table) (change : Change) (threshold_value : float),
    incl (dates (rows (accumulated_sampling df change threshold_value)))
         (dates (rows df)).
Proof.
  exact accumulated_sampling_dates_incl.
Qed.

(** Against itself a finite value gives the retention value zero. *)
Lemma condition_self change x :
  F64.finite x = true ->
  (change = Relative -> F64.nonzero x = true) ->
  condition change x x = 0%float.
Proof.
  intros Hf Hn. destruct change; unfold condition.
  - rewrite (F64Facts.fillna_finite x x Hf).
    rewrite (F64Facts.div_self x Hf (Hn eq_refl)). reflexivity.
  - rewrite (F64Facts.sub_self x Hf). reflexivity.
Qed.

Lemma accumulate_constant change t x ds :
  F64.finite x = true ->
  (change = Relative -> F64.nonzero x = true) ->
  (0 <? t)%float = true ->
  forall d0, accumulate change t (mkRow d0 [x]) (constant_series x ds) = [].
Proof.
  intros Hf Hn Ht. induction ds as [|d ds IH]; intros d0; simpl; [reflexivity|].
  unfold iloc0. simpl. rewrite (condition_self change x Hf Hn).
  rewrite (F64Facts.ltb_not_geb 0 t Ht). apply IH.
Qed.

Lemma one_value_constant x ds :
  F64.finite x = true -> forallb one_value (constant_series x ds) = true.
Proof.
  intros Hf. induction ds as [|d ds IH]; simpl; [reflexivity|].
  unfold one_value at 1. simpl. now rewrite (F64Facts.finite_not_nan x Hf), IH.
Qed.

(** [accumulated_sampling] on a series that stays at one value. *)
Lemma constant_series_accumulated_sampled :
  forall (label : string) (x : float) (d : Z) (ds : list Z)
         (change : Change) (threshold_value : float),
    F64.finite x = true ->
    (change = Relative -> F64.nonzero x = true) ->
    (0 <? threshold_value)%float = true ->
    has_duplicates (d :: ds) = false ->
    accumulated_sampling (mkTable [label] (constant_series x (d :: ds)))
                         change threshold_value
    = mkTable [accumulated_label label] [mkRow d [x]].
Proof.
  intros label x d ds change t Hf Hn Ht Hnd.
  pose proof (accumulated_sampling_retained_rows
                (mkTable [label] (constant_series x (d :: ds))) label change t
                eq_refl) as H.
  cbn [rows] in H. rewrite dates_constant_series in H.
  destruct (H Hnd (one_value_constant x (d :: ds) Hf)) as [E _].
  unfold accumulated_sampling in *. cbn [empty columns rows constant_series map] in *.
  f_equal. rewrite E. unfold dataframe_change. f_equal.
  apply (accumulate_constant change t x (d :: ds) Hf Hn Ht d).
Qed.

(** X7.  A one-column series that stays at one finite value (not zero in
    relative mode) is cut down by [accumulated_sampling] to its first row for
    every positive threshold: no row moves away from the seed. *)
Theorem accumulated_sampling_constant_series :
  forall (label : string) (x : float) (d : Z) (ds : list Z)
         (change : Change) (threshold_value : float),
    F64.finite x = true ->
    (change = Relative -> F64.nonzero x = true) ->
    (0 <? threshold_value)%float = true ->
    has_duplicates (d :: ds) = false ->
    accumulated_sampling (mkTable [label] (constant_series x (d :: ds)))
                         change threshold_value
    = mkTable [accumulated_label label] [mkRow d [x]].
Proof.
  exact constant_series_accumulated_sampled.
Qed.

Lemma accumulated_sampling_constant_series_witness :
  accumulated_sampling (mkTable ["PID"%string] (constant_series 500 [0; 1; 2]%Z))
                       Absolute 0.2
  = mkTable [accumulated_label "PID"] [mkRow 0 [500%float]].
Proof.
  apply (accumulated_sampling_constant_series "PID" 500 0 [1; 2]%Z Absolute 0.2);
    reflexivity.
Defined.

(** * Further properties of the Resampling Orchestrator *)

Lemma threshold_rows_dates change t rs :
  incl (dates (threshold_rows change t rs)) (dates rs).
Proof.
  intros d Hd. unfold dates, threshold_rows in *.
  apply in_map_iff in Hd. destruct Hd as (x & <- & Hx).
  apply in_map_iff in Hx. destruct Hx as ([r ch] & <- & Hrc).
  apply filter_In in Hrc. destruct Hrc as [Hrc _].
  apply in_combine_l in Hrc. simpl. now apply in_map.
Qed.

(** X8.  The two samplers in a row, as [resampling] runs them on a numeric
    series: when the call returns, the frame it returns is a new object
    without [comment], [name] or [grow] (which is why [resampling] writes the
    first two back), and each of its timestamps is a timestamp of the
    series. *)
Theorem sample_dates_and_attributes :
  forall (df out : DataFrame) (t : Table) (change : Change) (cut : float),
    body df = Numeric t ->
    sample threshold_sampling_call accumulated_sampling change cut df = Ok out ->
    comment out = None /\ name out = None /\ grow out = None
    /\ exists t', body out = Numeric t'
                  /\ incl (dates (rows t')) (dates (rows t)).
Proof.
  intros df out t change cut Hb H.
  unfold sample in H. rewrite Hb in H.
  unfold threshold_sampling_call, threshold_sampling in H.
  destruct (has_duplicates (dates (rows t))); [discriminate|].
  destruct (columns t) as [|c cs]; [discriminate|].
  simpl in H. injection H as <-.
  repeat split.
  eexists. split; [reflexivity|].
  eapply incl_tran; [apply accumulated_sampling_dates_incl|].
  simpl rows. apply threshold_rows_dates.
Qed.

Lemma sample_dates_and_attributes_witness :
  comment (fresh (Numeric (mkTable [accumulated_label (threshold_label "MIG")]
                                   [mkRow 0 [10.0%float]; mkRow 1 [11.0%float]])))
  = None.
Proof.
  refine (proj1 (sample_dates_and_attributes pressure_log _
                   (mkTable ["MIG"%string] [mkRow 0 [10.0%float]; mkRow 1 [11.0%float]])
                   Relative 0.5 eq_refl _)).
  reflexivity.
Defined.

(** X9.  The two samplers in a row on a one-column series that stays at one
    finite value (not zero in relative mode), with the default threshold of
    the first and a positive cut for the second: only the first row is
    left. *)
Theorem sample_constant_series :
  forall (label : string) (x : float) (d : Z) (ds : list Z)
         (change : Change) (cut : float) (c n g : option string),
    F64.finite x = true ->
    (change = Relative -> F64.nonzero x = true) ->
    (0 <? cut)%float = true ->
    has_duplicates (d :: ds) = false ->
    sample threshold_sampling_call accumulated_sampling change cut
           (mkDataFrame (Numeric (mkTable [label] (constant_series x (d :: ds)))) c n g)
    = Ok (fresh (Numeric (mkTable [accumulated_label (threshold_label label)]
                                  [mkRow d [x]]))).
Proof.
  intros label x d ds change cut c n g Hf Hn Hc Hnd.
  unfold sample, threshold_sampling_call. cbn [body].
  rewrite (constant_series_threshold_sampled label x d ds change
             default_threshold_value Hf Hn eq_refl Hnd).
  cbn [bind]. do 3 f_equal.
  apply (constant_series_accumulated_sampled (threshold_label label) x d []
           change cut Hf Hn Hc eq_refl).
Qed.

Lemma sample_constant_series_witness :
  sample threshold_sampling_call accumulated_sampling Relative 0.5
         (mkDataFrame (Numeric (mkTable ["MIG"%string] (constant_series 2.5 [0; 1; 2]%Z)))
                      (Some "log"%string) (Some "MIG"%string) None)
  = Ok (fresh (Numeric (mkTable [accumulated_label (threshold_label "MIG")]
                                [mkRow 0 [2.5%float]]))).
Proof.
  apply (sample_constant_series "MIG" 2.5 0 [1; 2]%Z Relative 0.5); reflexivity.
Defined.

(** *** The list of frames keeps its length and its attributes *)

Section Attributes.

Variable threshold_sampler : Table -> Change -> option float -> result Table.
Variable accumulated_sampler : Table -> Change -> float -> Table.
Variable resample_by_time : string -> string -> DataFrame -> result DataFrame.

(** An attribute that [set_grow] leaves alone and that [set_comment_name]
    sets to what it reads from a frame: [comment], or [name]. *)
Variable B : Type.
Variable attr : DataFrame -> B.
Hypothesis attr_set_grow : forall g x, attr (set_grow g x) = attr x.
Hypothesis attr_restored :
  forall c n x df,
    comment df = Some c -> name df = Some n -> attr (set_comment_name c n x) = attr df.

Lemma resampling_step_attr pc vc period method i st st' :
  resampling_step threshold_sampler accumulated_sampler resample_by_time
                  pc vc period method i st = Ok st' ->
  List.length (fst st') = List.length (fst st)
  /\ map attr (fst st') = map attr (fst st).
Proof.
  unfold resampling_step. destruct st as [l out].
  destruct (nth_error l i) as [df|] eqn:Ei; [|discriminate].
  destruct (comment df) as [c|] eqn:Ec; [|discriminate].
  destruct (name df) as [n|] eqn:En; [|discriminate].
  cbn [attribute bind].
  destruct (if String.eqb method "diff" then _ else _) as [df1|e]; [|discriminate].
  cbn [bind].
  set (l1 := set_nth i df1 l).
  assert (H1 : nth_error l1 i = Some df1) by (eapply nth_error_set_nth; eauto).
  intros H.
  assert (Hgoal : forall l3 z,
             List.length l3 = List.length l ->
             nth_error l3 i = Some z ->
             map attr l3 = set_nth i (attr z) (map attr l) ->
             List.length (update_nth i (set_comment_name c n) l3) = List.length l
             /\ map attr (update_nth i (set_comment_name c n) l3) = map attr l).
  { intros l3 z Hlen Hz Hmap. split; [now rewrite update_nth_length|].
    unfold update_nth. rewrite Hz, map_set_nth, Hmap, set_nth_twice.
    rewrite (attr_restored c n z df Ec En).
    apply set_nth_same. now apply map_nth_error. }
  destruct (has_label ["Message"] df1).
  - destruct (growth_time df1) as [[g pr]|e]; [|discriminate].
    cbn [bind fst snd] in H. injection H as <-. cbn [fst].
    apply (Hgoal _ g).
    + unfold l1. now rewrite !set_nth_length.
    + eapply nth_error_set_nth; eauto.
    + unfold l1. now rewrite !map_set_nth, set_nth_twice.
  - cbn [bind fst snd] in H. injection H as <-. cbn [fst].
    destruct (nth_error_update_nth_some (set_grow no_message_status) i
                (List.length l1 - 1) l1 df1 H1) as [z Hz].
    apply (Hgoal _ z).
    + unfold l1. now rewrite update_nth_length, set_nth_length.
    + exact Hz.
    + pose proof (map_update_nth_same attr (set_grow no_message_status)
                    (List.length l1 - 1) l1 (attr_set_grow no_message_status)) as Hm.
      rewrite Hm. unfold l1. rewrite map_set_nth.
      (* the frame at [i] after the update carries the attribute of [df1] *)
      assert (Ez : attr z = attr df1).
      { apply (map_nth_error attr) in Hz. rewrite Hm in Hz.
        apply (map_nth_error attr) in H1. congruence. }
      now rewrite Ez.
Qed.

Lemma resampling_loop_attr pc vc period method todo :
  forall st st',
    resampling_loop threshold_sampler accumulated_sampler resample_by_time
                    pc vc period method todo st = Ok st' ->
    List.length (fst st') = List.length (fst st)
    /\ map attr (fst st') = map attr (fst st).
Proof.
  induction todo as [|i todo IH]; intros st st' H; simpl in H.
  - injection H as <-. split; reflexivity.
  - destruct (resampling_step _ _ _ _ _ _ _ i st) as [st1|e] eqn:E; [|discriminate].
    cbn [bind] in H.
    destruct (resampling_step_attr _ _ _ _ _ _ _ E) as [L1 M1].
    destruct (IH _ _ H) as [L2 M2].
    split; congruence.
Qed.

End Attributes.

(** X10.  When [resampling] returns, in either mode, it returns as many
    frames as it was given, and the frame at each position carries the
    [comment] and the [name] of the frame given at that position: the
    attributes lost by the samplers and by [growth_time] are written back. *)
Theorem resampling_keeps_attributes :
  forall (resample_by_time : string -> string -> DataFrame -> result DataFrame)
         (dataframe_list out : list DataFrame) (percent_cut value_cut : float)
         (resampling_period resample_method : string) (pr : list printed),
    resampling resample_by_time dataframe_list percent_cut value_cut
               resampling_period resample_method = Ok (out, pr) ->
    List.length out = List.length dataframe_list
    /\ map name out = map name dataframe_list
    /\ map comment out = map comment dataframe_list.
Proof.
  intros rbt l out pc vc period method pr H.
  unfold resampling, resampling_with in H.
  destruct (resampling_loop_attr threshold_sampling_call accumulated_sampling rbt
              _ name (fun _ _ => eq_refl)
              (fun c n x df _ Hn => eq_sym Hn) _ _ _ _ _ _ _ H) as [L M].
  destruct (resampling_loop_attr threshold_sampling_call accumulated_sampling rbt
              _ comment (fun _ _ => eq_refl)
              (fun c n x df Hc _ => eq_sym Hc) _ _ _ _ _ _ _ H) as [_ M'].
  auto.
Qed.

Lemma resampling_keeps_attributes_witness :
  map name
      [mkDataFrame (Numeric (mkTable [accumulated_label (threshold_label "MIG")]
                                     [mkRow 0 [10.0%float]; mkRow 1 [11.0%float]]))
                   (Some "MIG log"%string) (Some "MIG"%string)
                   (Some no_message_status)]
  = map name [pressure_log].
Proof.
  refine (proj1 (proj2 (resampling_keeps_attributes
                          (fun _ _ df => Ok df) [pressure_log] _ 0.5 0.2
                          "30S" "diff" [Line no_message_status] _))).
  reflexivity.
Defined.

(** * Further properties of the Growth-Event Extractor *)

Local Open Scope string_scope.

(** The first steps of [growth_time] on a Messages log: the two columns are
    dropped and the [Message] column is found at position 0. *)
Lemma growth_time_messages ms c n g :
  growth_time (messages_frame ms c n g)
  = if existsb (fun m => contains "moved from" (snd m)) ms
    then
      match holder_moves ms with
      | [] => Ok (mkDataFrame (Text ["Message"] []) None None (Some no_growth_status),
                  [Line no_growth_status])
      | _ =>
          sp <- split_messages ["Message"] 0 (message_rows (holder_moves ms)) ;;
          let '(labels2, rows2, g2, out) := sp in
          print_grow (mkDataFrame (Text labels2 rows2) None None g2) out
      end
    else print_grow (mkDataFrame (Text ["Message"] (message_rows ms)) c n g) [].
Proof.
  unfold growth_time, messages_frame. cbn -[contains split_messages].
  rewrite messages_log_dropped, any_moved_messages.
  destruct (existsb (fun m => contains "moved from" (snd m)) ms); [|reflexivity].
  change (cell_contains "moved from") with (fun c => option_map (contains "moved from") c).
  rewrite mask_rows_messages. cbn -[contains split_messages].
  rewrite (mask_rows_ext _ (fun c => option_map (fun x => negb (contains "Mirror" x)) c))
    by (intros [x|]; reflexivity).
  rewrite mask_rows_messages. cbn -[contains split_messages].
  fold (holder_moves ms). unfold message_rows.
  destruct (holder_moves ms); reflexivity.
Qed.

(** X11.  On a Messages log without any "moved from" message [growth_time]
    assigns no status: it raises [AttributeError] at [print(df.grow)] when the
    frame had no [grow] attribute, and otherwise returns the frame reduced to
    its [Message] column with the status it already had, and prints it. *)
Theorem growth_time_assigns_nothing :
  forall (ms : list (Z * string)) (c n g : option string),
    existsb (fun m => contains "moved from" (snd m)) ms = false ->
    growth_time (messages_frame ms c n g)
    = match g with
      | Some s => Ok (mkDataFrame (Text ["Message"] (message_rows ms)) c n g, [Line s])
      | None => Raise AttributeError
      end.
Proof.
  intros ms c n g H. rewrite growth_time_messages, H.
  destruct g; reflexivity.
Qed.

Lemma growth_time_assigns_nothing_witness :
  growth_time (messages_frame [(1%Z, "Shutter Ga opened")] None None
                              (Some no_message_status))
  = Ok (mkDataFrame (Text ["Message"] (message_rows [(1%Z, "Shutter Ga opened")]))
                    None None (Some no_message_status),
        [Line no_message_status]).
Proof.
  apply (growth_time_assigns_nothing [(1%Z, "Shutter Ga opened")] None None
           (Some no_message_status)).
  reflexivity.
Defined.

(** X12.  When the log has "moved from" messages and every one of them
    mentions the Mirror, [growth_time] returns an empty frame with the status
    "No growth detected.", whatever status the frame had before. *)
Theorem growth_time_only_mirror_moves :
  forall (ms : list (Z * string)) (c n g : option string),
    existsb (fun m => contains "moved from" (snd m)) ms = true ->
    holder_moves ms = [] ->
    growth_time (messages_frame ms c n g)
    = Ok (mkDataFrame (Text ["Message"] []) None None (Some no_growth_status),
          [Line no_growth_status]).
Proof.
  intros ms c n g H He. now rewrite growth_time_messages, H, He.
Qed.

Lemma growth_time_only_mirror_moves_witness :
  growth_time (messages_frame [(1%Z, "Mirror moved from LL to GC"); (2%Z, "Shutter Ga opened")]
                              None None None)
  = Ok (mkDataFrame (Text ["Message"] []) None None (Some no_growth_status),
        [Line no_growth_status]).
Proof.
  apply (growth_time_only_mirror_moves
           [(1%Z, "Mirror moved from LL to GC"); (2%Z, "Shutter Ga opened")]);
    reflexivity.
Defined.

(** A string without the separator is not cut. *)
Lemma split_go_no_separator sep s :
  contains sep s = false ->
  forall cur, split_go sep s O cur = [cur ++ s].
Proof.
  induction s as [|c s IH]; intros H cur.
  - simpl. f_equal. clear. induction cur; simpl; congruence.
  - simpl in H. apply orb_false_iff in H. destruct H as [Hp Hc].
    cbn [split_go].
    replace (prefix sep (String c s)) with false.
    rewrite (IH Hc). f_equal.
    clear. induction cur; simpl; congruence.
Qed.

Lemma split_no_separator sep s : contains sep s = false -> split sep s = [s].
Proof. intros H. unfold split. now rewrite split_go_no_separator. Qed.

Lemma split_expand_single sep (ms : list (Z * string)) :
  ms <> [] ->
  forallb (fun m => negb (contains sep (snd m))) ms = true ->
  fst (split_expand sep (map (fun r => nth 0 (texts r) None) (message_rows ms))) = 1%nat.
Proof.
  intros _ H. unfold split_expand, message_rows. cbn [fst]. rewrite !map_map. simpl.
  induction ms as [|m ms IH]; [reflexivity|].
  simpl in H. apply andb_true_iff in H. destruct H as [Hm Hms].
  apply negb_true_iff in Hm.
  cbn [map fold_right]. rewrite (split_no_separator sep (snd m) Hm).
  rewrite (IH Hms). reflexivity.
Qed.

(** X13.  The rows are selected with "moved from" but cut at " moved from "
    with a blank on either side.  When messages are selected and none of them
    has the blanks (the text starts with "moved from", say), the cut gives one
    column where two are assigned and [growth_time] raises [ValueError]. *)
Theorem growth_time_separator_mismatch :
  forall (ms : list (Z * string)) (c n g : option string),
    holder_moves ms <> [] ->
    forallb (fun m => negb (contains " moved from " (snd m))) (holder_moves ms) = true ->
    growth_time (messages_frame ms c n g) = Raise ValueError.
Proof.
  intros ms c n g Hne Hsep. rewrite growth_time_messages.
  assert (Hany : existsb (fun m => contains "moved from" (snd m)) ms = true).
  { destruct (holder_moves ms) as [|m l] eqn:E; [congruence|].
    assert (Hin : In m (holder_moves ms)) by (rewrite E; now left).
    unfold holder_moves in Hin. apply filter_In in Hin. destruct Hin as [Hin _].
    apply filter_In in Hin. destruct Hin as [Hin Hm].
    apply existsb_exists. now exists m. }
  rewrite Hany.
  pose proof (split_expand_single " moved from " (holder_moves ms) Hne Hsep) as Hw.
  destruct (holder_moves ms) as [|m l] eqn:E; [congruence|].
  unfold split_messages, two_columns.
  rewrite Hw. reflexivity.
Qed.

Lemma growth_time_separator_mismatch_witness :
  growth_time (messages_frame [(1%Z, "moved from LL to GC")] None None None)
  = Raise ValueError.
Proof.
  apply (growth_time_separator_mismatch [(1%Z, "moved from LL to GC")]);
    [discriminate|reflexivity].
Defined.

Lemma growths_status_not_single counts :
  growths_status counts <> single_growth_status.
Proof.
  unfold growths_status, single_growth_status, str_of_nat.
  destruct (Nat.to_uint (snd (hd (EmptyString, O) counts))); simpl; discriminate.
Qed.

Lemma odd_not_two n : Nat.even n = false -> Nat.eqb n 2 = false.
Proof. destruct n as [|[|[|n]]]; simpl; try reflexivity; discriminate. Qed.

Lemma split_messages_not_single labels k rs labels' rs' g out :
  split_messages labels k rs = Ok (labels', rs', g, out) ->
  g <> Some single_growth_status.
Proof.
  unfold split_messages.
  destruct (two_columns (split_expand " moved from " _)) as [first|e]; [|discriminate].
  cbn [bind].
  destruct (two_columns (split_expand " to " _)) as [second|e]; [|discriminate].
  cbn [bind].
  match goal with |- context [value_counts ?c] => set (counts := value_counts c) end.
  destruct (existsb (fun c => negb (Nat.eqb (snd c) 2)) counts).
  - destruct (existsb (fun c => Nat.ltb 1 (snd c)) counts);
      intros H; inversion H; subst; discriminate.
  - match goal with |- context [Nat.even ?m] => destruct (Nat.even m) eqn:En end.
    + match goal with |- context [Nat.eqb ?m 2] => destruct (Nat.eqb m 2) end;
        cbn -[growths_status print_pairs];
        destruct (print_pairs _) as [out2|e]; try discriminate;
        cbn [bind]; intros H; inversion H; subst;
        intros E; apply (growths_status_not_single counts); congruence.
    + rewrite (odd_not_two _ En). intros H. inversion H; subst. discriminate.
Qed.

Lemma print_grow_status df out r pr :
  print_grow df out = Ok (r, pr) -> grow r = grow df.
Proof.
  unfold print_grow. destruct (grow df) as [s|] eqn:E; [|discriminate].
  intros H. injection H as <- _. exact E.
Qed.

(** X14.  [growth_time] never ends with the status "Single Growth detected.":
    whenever it returns a frame, for any frame given that does not carry that
    status already, the status of the frame returned is another one.  The
    branch that assigns it is always followed by the assignment of the
    "N growths detected" status. *)
Theorem growth_time_never_single :
  forall (df out : DataFrame) (pr : list printed),
    grow df <> Some single_growth_status ->
    growth_time df = Ok (out, pr) ->
    grow out <> Some single_growth_status.
Proof.
  intros df out pr Hg H. unfold growth_time in H.
  destruct (nth_error (labels_of (body df)) 0) as [c0|]; [|discriminate].
  destruct (nth_error (labels_of (body df)) 2) as [c2|]; [|discriminate].
  destruct (index_of "Message" _) as [k|]; [|discriminate].
  destruct (body df) as [t|labels trows]; [discriminate|].
  destruct (existsb _ _).
  - destruct (mask_rows (cell_contains "moved from") k _) as [moved|e]; [|discriminate].
    cbn [bind] in H.
    destruct (mask_rows _ k moved) as [holders|e]; [|discriminate].
    cbn [bind] in H.
    destruct holders as [|h hs].
    + apply print_grow_status in H. rewrite H. simpl. discriminate.
    + destruct (split_messages _ k (h :: hs)) as [[[[l2 r2] g2] o2]|e] eqn:E;
        [|discriminate].
      cbn [bind] in H. apply print_grow_status in H. rewrite H. simpl.
      exact (split_messages_not_single _ _ _ _ _ _ _ E).
  - apply print_grow_status in H. rewrite H. exact Hg.
Qed.

Lemma growth_time_never_single_witness :
  grow (mkDataFrame
          (Text ["object"; "from"; "to"]
                [mkTextRow 1 [Some "A"; Some "LL"; Some "GC"];
                 mkTextRow 2 [Some "A"; Some "GC"; Some "LL"]])
          None None (Some "2 growths detected with the names A."))
  <> Some single_growth_status.
Proof.
  refine (growth_time_never_single
            (messages_frame [(1%Z, "A moved from LL to GC"); (2%Z, "A moved from GC to LL")]
                            None None None)
            _ [Stamped "Start of the Growth: " 1;
               Stamped "End of the Growth: " 2;
               Stamped "Start of the Growth A:" 1;
               Stamped "End of the Growth A:" 2;
               Line "2 growths detected with the names A."] _ _).
  - discriminate.
  - reflexivity.
Defined.

(** * Properties of the labels, name and comment set by [epiclog_read] *)

Lemma has_char_remove a s : has_char a (remove_char a s) = false.
Proof.
  induction s as [|c s IH]; simpl; [reflexivity|].
  destruct (Ascii.eqb c a) eqn:E; simpl; [exact IH|]. now rewrite E.
Qed.

Lemma has_char_replace a b s :
  Ascii.eqb b a = false -> has_char a (replace_char a b s) = false.
Proof.
  intros Hab. induction s as [|c s IH]; simpl; [reflexivity|].
  destruct (Ascii.eqb c a) eqn:E; rewrite ?Hab, ?E, IH; reflexivity.
Qed.

Lemma has_char_replace_other x a b s :
  Ascii.eqb b x = false -> has_char x s = false ->
  has_char x (replace_char a b s) = false.
Proof.
  intros Hb. induction s as [|c s IH]; simpl; [reflexivity|].
  intros H. apply orb_false_iff in H. destruct H as [Hc Hs].
  destruct (Ascii.eqb c a); rewrite ?Hb, ?Hc, (IH Hs); reflexivity.
Qed.

Lemma remove_char_absent a s : has_char a s = false -> remove_char a s = s.
Proof.
  induction s as [|c s IH]; simpl; [reflexivity|].
  intros H. apply orb_false_iff in H. destruct H as [Hc Hs].
  now rewrite Hc, (IH Hs).
Qed.

Lemma replace_char_absent a b s : has_char a s = false -> replace_char a b s = s.
Proof.
  induction s as [|c s IH]; simpl; [reflexivity|].
  intros H. apply orb_false_iff in H. destruct H as [Hc Hs].
  now rewrite Hc, (IH Hs).
Qed.

Lemma normalize_label_chars s :
  has_char "." (normalize_label s) = false
  /\ has_char " " (normalize_label s) = false
  /\ has_char "'" (normalize_label s) = false.
Proof.
  unfold normalize_label. repeat split.
  - apply has_char_replace_other; [reflexivity|]. now apply has_char_replace.
  - now apply has_char_replace.
  - apply has_char_replace_other; [reflexivity|].
    apply has_char_replace_other; [reflexivity|]. apply has_char_remove.
Qed.

Lemma normalize_label_fixed s :
  has_char "." s = false -> has_char " " s = false -> has_char "'" s = false ->
  normalize_label s = s.
Proof.
  intros H1 H2 H3. unfold normalize_label.
  now rewrite (remove_char_absent _ _ H3), (replace_char_absent _ _ _ H1),
    (replace_char_absent _ _ _ H2).
Qed.

(** X15.  After the cleaning and the renaming step of [epiclog_read] the
    column labels hold no dot, no blank and no apostrophe, whatever labels
    [read_csv] found in the header; a label without these characters is kept
    as it is (so cleaning twice changes nothing more), and no column is left
    with the label [Date&Time]. *)
Theorem read_labels_clean :
  forall (header : list string),
    (forall l, In l (read_labels header) ->
       has_char "." l = false /\ has_char " " l = false /\ has_char "'" l = false)
    /\ (forall l, normalize_label (normalize_label l) = normalize_label l)
    /\ ~ In "Date&Time" (read_labels header).
Proof.
  intros header. split; [|split].
  - intros l Hl. unfold read_labels in Hl.
    apply in_map_iff in Hl. destruct Hl as (l1 & <- & Hl1).
    apply in_map_iff in Hl1. destruct Hl1 as (l0 & <- & _).
    destruct (String.eqb _ "Date&Time"); [repeat split|apply normalize_label_chars].
  - intros l. destruct (normalize_label_chars l) as (H1 & H2 & H3).
    now apply normalize_label_fixed.
  - intros H. unfold read_labels in H.
    apply in_map_iff in H. destruct H as (l1 & E & _).
    destruct (String.eqb_spec l1 "Date&Time") as [E1|E1]; [discriminate|congruence].
Qed.

(** X16.  The [name] attribute computed from the file path holds no dot and
    no blank, and is never longer than the path without its first 16 and
    last 4 characters; the [comment] computed from the first line holds no
    dot. *)
Theorem frame_name_clean :
  forall (path first_line : string),
    has_char "." (frame_name path) = false
    /\ has_char " " (frame_name path) = false
    /\ (String.length (frame_name path) <= String.length path - 20)%nat
    /\ has_char "." (frame_comment first_line) = false.
Proof.
  intros path line. unfold frame_name, frame_comment. repeat split.
  - apply has_char_replace_other; [reflexivity|]. now apply has_char_replace.
  - now apply has_char_replace.
  - assert (Hr : forall a b s, String.length (replace_char a b s) = String.length s).
    { intros a b s. induction s; simpl; congruence. }
    rewrite !Hr.
    generalize (String.length path - 20)%nat as m. generalize 16%nat as k.
    induction path as [|c p IH]; intros [|k] [|m]; simpl; try lia.
    + specialize (IH 0%nat m). lia.
    + apply (IH k 0%nat).
    + apply (IH k (S m)).
  - now apply has_char_replace.
Qed.

(** * The Messages log inside [resampling] *)

Lemma set_comment_name_same c n df :
  comment df = Some c -> name df = Some n -> set_comment_name c n df = df.
Proof.
  destruct df as [b c0 n0 g]. simpl. intros -> ->. reflexivity.
Qed.

(** X17.  Whether a Messages log without any "moved from" message gets
    through [resampling] depends on what stands before it in the list.  On
    its own it makes the call raise [AttributeError], as no status was ever
    assigned.  After a frame of three or more columns without a Message
    column (the Shutters log, say), it is the last frame of the list and has
    received that frame's "No Message log detected" diagnostic, which
    [growth_time] then prints and keeps as the status of the Messages log. *)
Theorem resampling_messages_after_wide_frame :
  forall (resample_by_time : string -> string -> DataFrame -> result DataFrame)
         (wide : DataFrame) (ms : list (Z * string))
         (c n cm nm : string) (percent_cut value_cut : float) (period : string),
    existsb (fun m => contains "moved from" (snd m)) ms = false ->
    Nat.ltb (List.length (labels_of (body wide))) 3 = false ->
    has_label ["Message"] wide = false ->
    comment wide = Some c ->
    name wide = Some n ->
    resampling resample_by_time [messages_frame ms (Some cm) (Some nm) None]
               percent_cut value_cut period "diff"
    = Raise AttributeError
    /\ resampling resample_by_time
                  [wide; messages_frame ms (Some cm) (Some nm) None]
                  percent_cut value_cut period "diff"
       = Ok ([wide;
              mkDataFrame (Text ["Message"] (message_rows ms)) (Some cm) (Some nm)
                          (Some no_message_status)],
             [Line no_message_status; Line no_message_status]).
Proof.
  intros rbt wide ms c n cm nm pc vc period Hm Hw Hl Hc Hn.
  assert (Hg : forall g,
             growth_time (messages_frame ms (Some cm) (Some nm) g)
             = print_grow (mkDataFrame (Text ["Message"] (message_rows ms))
                                       (Some cm) (Some nm) g) [])
    by (intro g; now rewrite growth_time_messages, Hm).
  assert (Hd : forall g,
             resample_diff threshold_sampling_call accumulated_sampling pc vc
                           (messages_frame ms (Some cm) (Some nm) g)
             = Ok (messages_frame ms (Some cm) (Some nm) g)) by reflexivity.
  assert (Hlab : forall g,
             has_label ["Message"] (messages_frame ms (Some cm) (Some nm) g) = true)
    by reflexivity.
  split.
  - unfold resampling, resampling_with. cbn [List.length seq resampling_loop].
    unfold resampling_step. cbn [nth_error].
    change (comment (messages_frame ms (Some cm) (Some nm) None)) with (Some cm).
    change (name (messages_frame ms (Some cm) (Some nm) None)) with (Some nm).
    cbn [attribute bind]. change (String.eqb "diff" "diff") with true. cbv iota.
    rewrite Hd. cbn [bind]. rewrite Hlab, Hg. reflexivity.
  - unfold resampling, resampling_with. cbn [List.length seq resampling_loop].
    unfold resampling_step at 1. cbn [nth_error]. rewrite Hc, Hn.
    cbn [attribute bind]. change (String.eqb "diff" "diff") with true. cbv iota.
    unfold resample_diff at 1. rewrite Hw. cbn [bind].
    rewrite Hl.
    cbn [bind fst snd List.length Nat.sub update_nth nth_error
         set_nth firstn skipn app].
    rewrite (set_comment_name_same c n wide Hc Hn).
    change (set_grow no_message_status (messages_frame ms (Some cm) (Some nm) None))
      with (messages_frame ms (Some cm) (Some nm) (Some no_message_status)).
    cbn [bind]. unfold resampling_step. cbn [nth_error].
    change (comment (messages_frame ms (Some cm) (Some nm) (Some no_message_status)))
      with (Some cm).
    change (name (messages_frame ms (Some cm) (Some nm) (Some no_message_status)))
      with (Some nm).
    cbn [attribute bind]. change (String.eqb "diff" "diff") with true. cbv iota.
    rewrite Hd. cbn [bind]. rewrite Hlab, Hg. reflexivity.
Qed.

Lemma resampling_messages_after_wide_frame_witness :
  resampling (fun _ _ df => Ok df)
             [messages_frame [(1%Z, "Shutter Ga opened")]
                             (Some "Messages log") (Some "Messages") None]
             0.5 0.2 "30S" "diff"
  = Raise AttributeError.
Proof.
  refine (proj1 (resampling_messages_after_wide_frame
                   (fun _ _ df => Ok df)
                   (mkDataFrame (Numeric (mkTable ["Ga"; "In"; "Al"] []))
                                (Some "Shutters log") (Some "Shutters") None)
                   [(1%Z, "Shutter Ga opened")]
                   "Shutters log" "Shutters" "Messages log" "Messages"
                   0.5 0.2 "30S" _ _ _ _ _)); reflexivity.
Defined.
